(** * Omnara webhook server (app.py): a shallow embedding

    The program is one Python module of FastAPI route handlers.  Each
    handler is embedded as a function of the request, of the configuration
    read from the environment when the module is imported, and of the value
    that [datetime.utcnow()] returns while the request is processed.

    Python objects that travel through the handlers are the values that
    [json.loads] builds.  Effects (reading the request body, logging,
    raising and catching exceptions) live in a small trace-and-error monad,
    so that the order of effects can be stated. *)

From Stdlib Require Import String Ascii List ZArith Bool Arith Lia.
From Stdlib Require Import DecimalString SpecFloat.
From Stdlib Require DecimalPos.
Import ListNotations.
Open Scope string_scope.
Set Warnings "-register-all".

(** ** Python values *)

(** What [json.loads] can return: [None], [bool], [int] (unbounded),
    [float], [str], [list] and [dict].  A [dict] keeps its items in
    insertion order; its keys are strings.  A [str] is kept as the bytes
    of its code points, each written by the UTF-8 scheme; a lone
    surrogate, which JSON can bring in as [\ud800], is written the same
    way (bytes ED A0..BF xx). *)
#[local] Unset Elimination Schemes.
Inductive value : Type :=
| VNone
| VBool (b : bool)
| VInt (z : Z)
| VFloat (f : spec_float)
| VStr (s : string)
| VList (l : list value)
| VDict (items : list (string * value)).
#[local] Set Elimination Schemes.

(** [bool(v)], as used by [if not data]. *)
Definition truthy (v : value) : bool :=
  match v with
  | VNone => false
  | VBool b => b
  | VInt z => negb (Z.eqb z 0)
  | VFloat (S754_zero _) => false
  | VFloat _ => true
  | VStr s => negb (String.eqb s "")
  | VList l => match l with [] => false | _ :: _ => true end
  | VDict items => match items with [] => false | _ :: _ => true end
  end.

(** [type(v).__name__], which appears in the text of an [AttributeError]. *)
Definition type_name (v : value) : string :=
  match v with
  | VNone => "NoneType"
  | VBool _ => "bool"
  | VInt _ => "int"
  | VFloat _ => "float"
  | VStr _ => "str"
  | VList _ => "list"
  | VDict _ => "dict"
  end.

(** [v == "literal"] for a string literal on the right: only a [str] with
    the same characters is equal to it. *)
Definition eq_str (v : value) (lit : string) : bool :=
  match v with
  | VStr s => String.eqb s lit
  | _ => false
  end.

(** Item lookup in the items of a dict. *)
Fixpoint lookup (k : string) (items : list (string * value)) : option value :=
  match items with
  | [] => None
  | (k', v) :: rest => if String.eqb k k' then Some v else lookup k rest
  end.

(** [d.get(k, default)] on the items of a dict: a present key wins, also
    when it is bound to [None]. *)
Definition dict_get (items : list (string * value)) (k : string) (default : value) : value :=
  match lookup k items with
  | Some v => v
  | None => default
  end.

(** ** Exceptions *)

(** [HTTPException] is the one class the module raises itself; every other
    exception (all subclasses of [Exception]) is kept as its class name and
    its [str()]. *)
Inductive exn : Type :=
| HTTPException (status_code : Z) (detail : string)
| PyException (cls : string) (text : string).

Definition string_of_Z (z : Z) : string :=
  NilZero.string_of_int (Z.to_int z).

(** [str(e)].  Starlette prints an [HTTPException] as its status code, a
    colon and its detail. *)
Definition str_exn (e : exn) : string :=
  match e with
  | HTTPException code detail => string_of_Z code ++ ": " ++ detail
  | PyException _ text => text
  end.

(** The exception of [v.get] when [v] is not a dict. *)
Definition no_attribute_get (v : value) : exn :=
  PyException "AttributeError"
    ("'" ++ type_name v ++ "' object has no attribute 'get'").

(** ** Trace-and-error monad *)

Inductive event : Type :=
| ReadBody
| UtcNow
| LogInfo (msg : string)
| LogError (msg : string).

Inductive result (A : Type) : Type :=
| Return (a : A)
| Raise (e : exn).
Arguments Return {A} a.
Arguments Raise {A} e.

(** A computation: the events it performed, in order, and how it ended. *)
Record M (A : Type) : Type := mkM { trace : list event; outcome : result A }.
Arguments mkM {A} trace outcome.
Arguments trace {A} m.
Arguments outcome {A} m.

Definition ret {A} (a : A) : M A := mkM [] (Return a).
Definition raise {A} (e : exn) : M A := mkM [] (Raise e).
Definition emit (ev : event) : M unit := mkM [ev] (Return tt).

Definition bind {A B} (m : M A) (k : A -> M B) : M B :=
  match outcome m with
  | Return a => let r := k a in mkM (trace m ++ trace r) (outcome r)
  | Raise e => mkM (trace m) (Raise e)
  end.

(** [try: m  except Exception as e: handler e]. *)
Definition try_except {A} (m : M A) (handler : exn -> M A) : M A :=
  match outcome m with
  | Return a => m
  | Raise e => let r := handler e in mkM (trace m ++ trace r) (outcome r)
  end.

Declare Scope py_scope.
Delimit Scope py_scope with py.
Notation "x <- m ;; k" := (bind m (fun x => k))
  (at level 61, m at next level, right associativity) : py_scope.
Notation "m ;; k" := (bind m (fun _ => k))
  (at level 61, right associativity) : py_scope.
Open Scope py_scope.

(** ** Wall-clock time *)

(** A naive [datetime], as [datetime.utcnow()] returns it. *)
Record datetime : Type := mkDatetime {
  year : Z; month : Z; day : Z;
  hour : Z; minute : Z; second : Z;
  microsecond : Z
}.

(** The ranges every [datetime] object satisfies. *)
Definition valid_datetime (t : datetime) : Prop :=
  (1 <= year t <= 9999 /\ 1 <= month t <= 12 /\ 1 <= day t <= 31 /\
   0 <= hour t < 24 /\ 0 <= minute t < 60 /\ 0 <= second t < 60 /\
   0 <= microsecond t < 1000000)%Z.

Fixpoint zeros (n : nat) : string :=
  match n with
  | O => ""
  | S n' => String "0" (zeros n')
  end.

(** Decimal digits of [n], padded with zeros on the left to [width]. *)
Definition zpad (width : nat) (n : Z) : string :=
  let d := string_of_Z n in zeros (width - String.length d) ++ d.

(** [t.strftime('%Y%m%d_%H%M%S')]: [%Y] is the year as the C library
    prints it, without padding (four digits from the year 1000 on); the
    other fields are on two digits, padded with zeros. *)
Definition strftime_stamp (t : datetime) : string :=
  string_of_Z (year t) ++ zpad 2 (month t) ++ zpad 2 (day t) ++ "_" ++
  zpad 2 (hour t) ++ zpad 2 (minute t) ++ zpad 2 (second t).

(** [t.isoformat()] of a naive datetime: the fraction is printed only when
    the microsecond is not zero. *)
Definition isoformat (t : datetime) : string :=
  zpad 4 (year t) ++ "-" ++ zpad 2 (month t) ++ "-" ++ zpad 2 (day t) ++ "T" ++
  zpad 2 (hour t) ++ ":" ++ zpad 2 (minute t) ++ ":" ++ zpad 2 (second t) ++
  (if Z.eqb (microsecond t) 0 then "" else "." ++ zpad 6 (microsecond t)).

(** ** Requests, responses and configuration *)

(** What [await request.json()] does with the body of the request: it
    returns the parsed value or raises (a [JSONDecodeError] on a body that
    is not JSON). *)
Inductive body_read : Type :=
| BodyJson (v : value)
| BodyRaises (e : exn).

(** The part of a request to [/webhook] the handler looks at: the
    [X-API-Key] header ([None] when absent) and the body. *)
Record Request : Type := mkRequest {
  x_api_key : option string;
  body : body_read
}.

Definition environ : Type := list (string * string).

(** [os.environ.get(k, default)]. *)
Fixpoint environ_get (env : environ) (k default : string) : string :=
  match env with
  | [] => default
  | (k', v) :: rest => if String.eqb k k' then v else environ_get rest k default
  end.

(** The module-level state, set when the module is imported and assigned
    by no handler. *)
Record server : Type := mkServer { API_KEY : string }.

Definition startup (env : environ) : server :=
  mkServer (environ_get env "OMNARA_API_KEY" "B7hVKeNKPcVIL0lk").

(** [x_api_key != API_KEY]: [None] differs from every string. *)
Definition key_differs (x : option string) (key : string) : bool :=
  match x with
  | Some k => negb (String.eqb k key)
  | None => true
  end.

Record http_response : Type := mkResponse {
  status : Z;
  content : value
}.

(** ** Rendering an answer *)

(** Whether [s.encode("utf-8")] succeeds: it fails on a surrogate, which
    shows as the byte ED followed by a byte from A0 to BF. *)
Fixpoint utf8_encodable (s : string) : bool :=
  match s with
  | EmptyString => true
  | String c r =>
      match r with
      | EmptyString => true
      | String c' _ =>
          negb ((nat_of_ascii c =? 237)%nat &&
                (160 <=? nat_of_ascii c')%nat && (nat_of_ascii c' <=? 191)%nat)
          && utf8_encodable r
      end
  end.

(** A float that JSON can write: not an infinity, not a NaN. *)
Definition finite (f : spec_float) : bool :=
  match f with
  | S754_infinity _ | S754_nan => false
  | S754_zero _ | S754_finite _ _ _ => true
  end.

(** Whether [json.dumps(v, allow_nan=False, ensure_ascii=False)
    .encode("utf-8")], by which the framework renders a returned object,
    succeeds: no float in [v] is an infinity or a NaN, and every string
    and key in [v] can be encoded. *)
Fixpoint renderable (v : value) : bool :=
  match v with
  | VNone | VBool _ | VInt _ => true
  | VFloat f => finite f
  | VStr s => utf8_encodable s
  | VList l => forallb renderable l
  | VDict items =>
      forallb (fun kv : string * value =>
                 let (k, x) := kv in utf8_encodable k && renderable x) items
  end.

(** The plain-text 500 of the server, sent when an exception other than
    an [HTTPException] ends the request. *)
Definition server_error_response : http_response :=
  mkResponse 500 (VStr "Internal Server Error").

(** What FastAPI sends for the end of a handler: 200 with the returned
    object when it can be rendered, and the plain 500 of the server when
    rendering it raises (this happens after the handler has returned, so
    outside its [try]); the status and [{"detail": ...}] of an
    [HTTPException], whose detail here is the fixed text of the 401 or
    the text of a caught exception; and the plain 500 for any other
    exception. *)
Definition respond (m : M value) : http_response :=
  match outcome m with
  | Return v => if renderable v then mkResponse 200 v else server_error_response
  | Raise (HTTPException code detail) => mkResponse code (VDict [("detail", VStr detail)])
  | Raise (PyException _ _) => server_error_response
  end.

(** The object a handler returned, if it returned. *)
Definition returned (m : M value) : option value :=
  match outcome m with
  | Return v => Some v
  | Raise _ => None
  end.

(** The [str] that [json.loads] makes of ["\ud800"]: one lone surrogate. *)
Definition lone_surrogate : string :=
  String (ascii_of_nat 237) (String (ascii_of_nat 160) (String (ascii_of_nat 128) "")).


(** Text made of ASCII characters only. *)
Fixpoint plain_text (s : string) : bool :=
  match s with
  | EmptyString => true
  | String c r => (nat_of_ascii c <? 128)%nat && plain_text r
  end.

(** ** The handlers of app.py *)

Section Handlers.

(** [repr] of a float, a list or a dict is produced by the interpreter;
    the handlers only paste it into messages, so it is a parameter. *)
Variable py_repr : value -> string.

(** What an f-string puts for [{v}]: [str(v)]. *)
Definition py_format (v : value) : string :=
  match v with
  | VStr s => s
  | VNone => "None"
  | VBool true => "True"
  | VBool false => "False"
  | VInt z => string_of_Z z
  | VFloat _ | VList _ | VDict _ => py_repr v
  end.

Definition logger_info (msg : string) : M unit := emit (LogInfo msg).
Definition logger_error (msg : string) : M unit := emit (LogError msg).

(** [datetime.utcnow()], where [now] is what the clock shows. *)
Definition utcnow (now : datetime) : M datetime := emit UtcNow ;; ret now.

(** [await request.json()]. *)
Definition request_json (request : Request) : M value :=
  emit ReadBody ;;
  match body request with
  | BodyJson v => ret v
  | BodyRaises e => raise e
  end.

(** [v.get(k, default)]: only a dict has the method. *)
Definition py_get (v : value) (k : string) (default : value) : M value :=
  match v with
  | VDict items => ret (dict_get items k default)
  | _ => raise (no_attribute_get v)
  end.

(** [GET /] *)
Definition root : M value :=
  ret (VDict [("service", VStr "Omnara Webhook Server");
              ("status", VStr "online");
              ("version", VStr "1.0.0");
              ("endpoints", VDict [("health", VStr "/health");
                                   ("webhook", VStr "/webhook");
                                   ("agents", VStr "/api/agents")])]).

(** [GET /health] *)
Definition health_check (now : datetime) : M value :=
  t <- utcnow now ;;
  ret (VDict [("status", VStr "healthy"); ("timestamp", VStr (isoformat t))]).

(** [create_agent(data)], also the handler of [POST /api/agents]. *)
Definition create_agent (now : datetime) (data : value) : M value :=
  let data := if negb (truthy data) then VDict [] else data in
  t <- utcnow now ;;
  let agent_id := "agent_" ++ strftime_stamp t in
  ret (VDict [("status", VStr "success");
              ("agent_id", VStr agent_id);
              ("message", VStr "Agent created successfully");
              ("config", data)]).

(** [GET /api/agents] *)
Definition list_agents : M value :=
  ret (VDict [("status", VStr "success");
              ("agents", VList [
                 VDict [("id", VStr "agent_1"); ("status", VStr "running");
                        ("created", VStr "2024-01-01")];
                 VDict [("id", VStr "agent_2"); ("status", VStr "stopped");
                        ("created", VStr "2024-01-02")]])]).

Definition handle_deploy (data : value) : M value :=
  environment <- py_get data "environment" (VStr "production") ;;
  version <- py_get data "version" (VStr "latest") ;;
  logger_info ("Deploying version " ++ py_format version ++ " to " ++
               py_format environment) ;;
  ret (VDict [("status", VStr "success");
              ("message", VStr "Deployment initiated");
              ("environment", environment);
              ("version", version)]).

Definition handle_code_review (data : value) : M value :=
  repository <- py_get data "repository" (VStr "unknown") ;;
  branch <- py_get data "branch" (VStr "main") ;;
  logger_info ("Code review for " ++ py_format repository ++ ":" ++
               py_format branch) ;;
  ret (VDict [("status", VStr "success");
              ("message", VStr "Code review initiated");
              ("repository", repository);
              ("branch", branch)]).

(** The block under [try] in [webhook_handler]. *)
Definition webhook_try (now : datetime) (request : Request) : M value :=
  payload <- request_json request ;;
  action <- py_get payload "action" (VStr "unknown") ;;
  data <- py_get payload "data" (VDict []) ;;
  logger_info ("Webhook received: action=" ++ py_format action) ;;
  if eq_str action "create_agent" then create_agent now data
  else if eq_str action "deploy" then handle_deploy data
  else if eq_str action "code_review" then handle_code_review data
  else ret (VDict [("status", VStr "success");
                   ("message", VStr ("Action '" ++ py_format action ++ "' received"))]).

(** [POST /webhook] *)
Definition webhook_handler (srv : server) (now : datetime) (request : Request)
  : M value :=
  if key_differs (x_api_key request) (API_KEY srv)
  then raise (HTTPException 401 "Invalid API key")
  else
    try_except (webhook_try now request)
      (fun e =>
         logger_error ("Webhook error: " ++ str_exn e) ;;
         raise (HTTPException 500 (str_exn e))).

(** ** The routes *)

(** The body parameter of [POST /api/agents] is declared [data: dict =
    None]: the framework hands the handler a dict, or [None] when the
    request has no body. *)
Inductive http_request : Type :=
| GET_root
| GET_health
| POST_webhook (request : Request)
| POST_api_agents (data : option (list (string * value)))
| GET_api_agents.

Definition body_param (data : option (list (string * value))) : value :=
  match data with
  | Some items => VDict items
  | None => VNone
  end.

Definition route (srv : server) (now : datetime) (r : http_request) : M value :=
  match r with
  | GET_root => root
  | GET_health => health_check now
  | POST_webhook request => webhook_handler srv now request
  | POST_api_agents data => create_agent now (body_param data)
  | GET_api_agents => list_agents
  end.

(** One request: the state of the module after it and the response.  No
    handler assigns a module-level name, so the state is passed on. *)
Definition step (srv : server) (tr : datetime * http_request)
  : server * http_response :=
  (srv, respond (route srv (fst tr) (snd tr))).

(** The requests of a history, served in order, each at its own time. *)
Fixpoint serve (srv : server) (history : list (datetime * http_request))
  : server * list http_response :=
  match history with
  | [] => (srv, [])
  | tr :: rest =>
      let (srv', resp) := step srv tr in
      let (srv'', resps) := serve srv' rest in
      (srv'', resp :: resps)
  end.

End Handlers.

(** ** Patterns and projections used to state the properties *)

Definition is_digit (c : ascii) : bool :=
  let n := nat_of_ascii c in (48 <=? n)%nat && (n <=? 57)%nat.

Fixpoint all_digits (s : string) : bool :=
  match s with
  | EmptyString => true
  | String c r => is_digit c && all_digits r
  end.







(** Number of digit characters in a string. *)
Fixpoint count_digits (s : string) : nat :=
  match s with
  | EmptyString => O
  | String c r => (if is_digit c then 1 else 0) + count_digits r
  end.

(** The acknowledgement in the words of the specification. *)
Definition spec_echo_message (action : string) : string :=
  "action '" ++ action ++ "' received".

(** Whether [p] occurs in [s]. *)
Fixpoint occurs_in (p s : string) : bool :=
  if String.prefix p s then true
  else match s with
       | EmptyString => false
       | String _ r => occurs_in p r
       end.

(** A field of a response object. *)
Definition field (k : string) (v : value) : option value :=
  match v with
  | VDict items => lookup k items
  | _ => None
  end.

(** The body of a webhook request: a JSON object with these items. *)
Definition json_request (key : option string) (items : list (string * value)) : Request :=
  mkRequest key (BodyJson (VDict items)).

(** [P] on every integer from 0 below [n]. *)
Fixpoint all_below (P : Z -> bool) (n : nat) : bool :=
  match n with
  | O => true
  | S k => P (Z.of_nat k) && all_below P k
  end.

(** The two ways in which a request reaches [create_agent], and the data
    it is called with: [POST /webhook] with the right key and an object
    whose action is "create_agent" (the data of the object, [{}] when
    absent), and [POST /api/agents] (the body, [None] when absent). *)
Inductive invokes_create_agent (srv : server) : http_request -> value -> Prop :=
| via_webhook (request : Request) (items : list (string * value)) :
    x_api_key request = Some (API_KEY srv) ->
    body request = BodyJson (VDict items) ->
    lookup "action" items = Some (VStr "create_agent") ->
    invokes_create_agent srv (POST_webhook request) (dict_get items "data" (VDict []))
| via_api_agents (data : option (list (string * value))) :
    invokes_create_agent srv (POST_api_agents data) (body_param data).

(** The answer to a request without the right key. *)
Definition invalid_key_response : http_response :=
  mkResponse 401 (VDict [("detail", VStr "Invalid API key")]).

(** [zpad width n] has exactly [width] characters, all of them digits. *)
Definition fills (width : nat) (n : Z) : bool :=
  (String.length (zpad width n) =? width)%nat && all_digits (zpad width n).

(** The two descriptors of the agent listing. *)
Definition fixed_agents : value :=
  VDict [("status", VStr "success");
         ("agents", VList [
            VDict [("id", VStr "agent_1"); ("status", VStr "running");
                   ("created", VStr "2024-01-01")];
            VDict [("id", VStr "agent_2"); ("status", VStr "stopped");
                   ("created", VStr "2024-01-02")]])].

(** ** Readers and predicates used to state further properties *)

(** The number a string of decimal digits writes. *)
Definition number (s : string) : option Z :=
  option_map Z.of_uint (NilEmpty.uint_of_string s).

Fixpoint take (n : nat) (s : string) : string :=
  match n, s with
  | S n', String c r => String c (take n' r)
  | _, _ => EmptyString
  end.

Fixpoint drop (n : nat) (s : string) : string :=
  match n, s with
  | S n', String _ r => drop n' r
  | _, _ => s
  end.

(** Reads a number written on exactly [width] digits; what follows it. *)
Definition read_number (width : nat) (s : string) : option (Z * string) :=
  if (String.length (take width s) =? width)%nat && all_digits (take width s)
  then option_map (fun n => (n, drop width s)) (number (take width s))
  else None.

(** Reads the character [c]; what follows it. *)
Definition read_char (c : ascii) (s : string) : option string :=
  match s with
  | String c' r => if Ascii.eqb c c' then Some r else None
  | EmptyString => None
  end.

Definition and_read {A B : Type} (o : option (A * string))
  (k : A -> string -> option B) : option B :=
  match o with
  | Some (a, s) => k a s
  | None => None
  end.

Definition and_skip {B : Type} (o : option string) (k : string -> option B) : option B :=
  match o with
  | Some s => k s
  | None => None
  end.

(** Reads back a stamp YYYYMMDD_HHMMSS. *)
Definition parse_stamp (s : string) : option datetime :=
  and_read (read_number 4 s) (fun y s =>
  and_read (read_number 2 s) (fun mo s =>
  and_read (read_number 2 s) (fun d s =>
  and_skip (read_char "_" s) (fun s =>
  and_read (read_number 2 s) (fun h s =>
  and_read (read_number 2 s) (fun mi s =>
  and_read (read_number 2 s) (fun sec s =>
  match s with
  | EmptyString => Some (mkDatetime y mo d h mi sec 0)
  | String _ _ => None
  end))))))).


(** Reads back YYYY-MM-DDTHH:MM:SS, with or without a fraction of digits
    after a point (the microseconds). *)
Definition parse_isoformat (s : string) : option datetime :=
  and_read (read_number 4 s) (fun y s =>
  and_skip (read_char "-" s) (fun s =>
  and_read (read_number 2 s) (fun mo s =>
  and_skip (read_char "-" s) (fun s =>
  and_read (read_number 2 s) (fun d s =>
  and_skip (read_char "T" s) (fun s =>
  and_read (read_number 2 s) (fun h s =>
  and_skip (read_char ":" s) (fun s =>
  and_read (read_number 2 s) (fun mi s =>
  and_skip (read_char ":" s) (fun s =>
  and_read (read_number 2 s) (fun sec s =>
  match s with
  | EmptyString => Some (mkDatetime y mo d h mi sec 0)
  | String c f =>
      if Ascii.eqb c "." && all_digits f && negb (String.eqb f "")
      then option_map (mkDatetime y mo d h mi sec) (number f)
      else None
  end))))))))))).

(** A time with its microseconds dropped. *)
Definition to_second (t : datetime) : datetime :=
  mkDatetime (year t) (month t) (day t) (hour t) (minute t) (second t) 0.

Definition is_dict (v : value) : bool :=
  match v with
  | VDict _ => true
  | _ => false
  end.

(** The requests to [/webhook] that leave the block under [try] by an
    exception: the body cannot be read as JSON, the body is not an object,
    or the action is "deploy" or "code_review" and the data is not an
    object. *)
Definition webhook_fails (request : Request) : bool :=
  match body request with
  | BodyRaises _ => true
  | BodyJson (VDict items) =>
      let action := dict_get items "action" (VStr "unknown") in
      let data := dict_get items "data" (VDict []) in
      (eq_str action "deploy" || eq_str action "code_review") && negb (is_dict data)
  | BodyJson _ => true
  end.

(** The requests to [/webhook] whose action is "create_agent". *)
Definition asks_create_agent (request : Request) : bool :=
  match body request with
  | BodyJson (VDict items) =>
      eq_str (dict_get items "action" (VStr "unknown")) "create_agent"
  | _ => false
  end.

Definition is_error_log (ev : event) : bool :=
  match ev with
  | LogError _ => true
  | _ => false
  end.

Definition is_clock_read (ev : event) : bool :=
  match ev with
  | UtcNow => true
  | _ => false
  end.

(** The identifiers in the answer of the agent listing. *)
Definition listed_ids (v : value) : list value :=
  match field "agents" v with
  | Some (VList agents) =>
      flat_map (fun a => match field "id" a with
                         | Some i => [i]
                         | None => []
                         end) agents
  | _ => []
  end.

(** * Properties *)

(** ** Evaluation on concrete inputs *)

Example strftime_stamp_ex :
  strftime_stamp (mkDatetime 2024 1 2 3 4 5 0) = "20240102_030405".
Proof. reflexivity. Qed.

Example isoformat_ex :
  isoformat (mkDatetime 2024 1 2 3 4 5 600) = "2024-01-02T03:04:05.000600".
Proof. reflexivity. Qed.

Example startup_unset : API_KEY (startup []) = "B7hVKeNKPcVIL0lk".
Proof. reflexivity. Qed.

Example startup_set :
  API_KEY (startup [("PORT", "8080"); ("OMNARA_API_KEY", "s3cret")]) = "s3cret".
Proof. reflexivity. Qed.

Example deploy_ex :
  respond (webhook_handler (fun _ => "") (startup []) (mkDatetime 2024 1 2 3 4 5 0)
             (json_request (Some "B7hVKeNKPcVIL0lk")
                [("action", VStr "deploy");
                 ("data", VDict [("environment", VStr "staging");
                                 ("version", VStr "2.1")])]))
  = mkResponse 200
      (VDict [("status", VStr "success"); ("message", VStr "Deployment initiated");
              ("environment", VStr "staging"); ("version", VStr "2.1")]).
Proof. reflexivity. Qed.

(** ** The monad *)

Lemma bind_ret_l {A B} (a : A) (k : A -> M B) : bind (ret a) k = k a.
Proof. unfold bind, ret; simpl. destruct (k a); reflexivity. Qed.

Lemma bind_raise_l {A B} (e : exn) (k : A -> M B) : bind (raise e) k = raise e.
Proof. reflexivity. Qed.

Lemma outcome_bind_raise {A B} (m : M A) (k : A -> M B) (e : exn) :
  outcome m = Raise e -> outcome (bind m k) = Raise e.
Proof. unfold bind; intros ->; reflexivity. Qed.

Lemma trace_bind_prefix {A B} (m : M A) (k : A -> M B) :
  exists rest, trace (bind m k) = (trace m ++ rest)%list.
Proof.
  unfold bind. destruct (outcome m).
  - eexists; reflexivity.
  - exists []. simpl. now rewrite app_nil_r.
Qed.

Lemma try_except_raise {A} (m : M A) (h : exn -> M A) (e : exn) :
  outcome m = Raise e -> outcome (try_except m h) = outcome (h e).
Proof. unfold try_except; intros ->; reflexivity. Qed.

Lemma try_except_return {A} (m : M A) (h : exn -> M A) (a : A) :
  outcome m = Return a -> try_except m h = m.
Proof. unfold try_except; intros ->; reflexivity. Qed.

(** ** The key comparison *)

Lemma key_differs_true (x : option string) (key : string) :
  key_differs x key = true <-> x <> Some key.
Proof.
  destruct x as [k|]; simpl.
  - rewrite negb_true_iff. split.
    + intros H [= ->]. now rewrite String.eqb_refl in H.
    + intros H. apply String.eqb_neq. congruence.
  - split; [discriminate | reflexivity].
Qed.

Lemma key_differs_false (x : option string) (key : string) :
  key_differs x key = false <-> x = Some key.
Proof.
  destruct (key_differs x key) eqn:E.
  - apply key_differs_true in E. split; [discriminate | contradiction].
  - split; [intros _ | reflexivity].
    destruct x as [k|]; simpl in E; [|discriminate].
    apply negb_false_iff, String.eqb_eq in E. now subst.
Qed.

Lemma environ_get_unset (env : environ) (k default : string) :
  (forall v, ~ In (k, v) env) -> environ_get env k default = default.
Proof.
  induction env as [|[k' v'] rest IH]; simpl; intros H; [reflexivity|].
  destruct (String.eqb k k') eqn:E.
  - apply String.eqb_eq in E. subst. exfalso. apply (H v'). now left.
  - apply IH. intros v Hin. apply (H v). now right.
Qed.

(** With [OMNARA_API_KEY] unset the key is the literal of the source. *)
Lemma startup_default (env : environ) :
  (forall v, ~ In ("OMNARA_API_KEY", v) env) ->
  API_KEY (startup env) = "B7hVKeNKPcVIL0lk".
Proof. intros H. now apply environ_get_unset. Qed.

(** ** Rendering *)

Lemma respond_return (m : M value) (v : value) :
  outcome m = Return v ->
  respond m = if renderable v then mkResponse 200 v else server_error_response.
Proof. unfold respond. now intros ->. Qed.

Lemma respond_outcome (m m' : M value) : outcome m = outcome m' -> respond m = respond m'.
Proof. unfold respond. now intros ->. Qed.

Lemma plain_text_app (a b : string) :
  plain_text (a ++ b) = plain_text a && plain_text b.
Proof.
  induction a as [|c a IH]; simpl; [reflexivity|]. now rewrite IH, andb_assoc.
Qed.

(** ASCII text has no surrogate in it. *)
Lemma plain_text_encodable (s : string) : plain_text s = true -> utf8_encodable s = true.
Proof.
  induction s as [|c r IH]; [reflexivity|].
  cbn [plain_text utf8_encodable]. intros H.
  apply andb_true_iff in H. destruct H as [Hc Hr].
  destruct r as [|c' r']; [reflexivity|].
  rewrite (IH Hr), andb_true_r.
  apply Nat.ltb_lt in Hc.
  destruct (Nat.eqb_spec (nat_of_ascii c) 237) as [E|E]; [lia | reflexivity].
Qed.

(** ASCII text before or after a string does not change whether it can
    be encoded. *)
Lemma encodable_after_plain (p s : string) :
  plain_text p = true -> utf8_encodable (p ++ s) = utf8_encodable s.
Proof.
  induction p as [|c p IH]; [reflexivity|].
  cbn [plain_text]. intros H. apply andb_true_iff in H. destruct H as [Hc Hp].
  apply Nat.ltb_lt in Hc. specialize (IH Hp).
  change (String c p ++ s) with (String c (p ++ s)). cbn [utf8_encodable].
  destruct (p ++ s) as [|c' r] eqn:E.
  - destruct p; [simpl in E; now subst | discriminate].
  - rewrite IH.
    destruct (Nat.eqb_spec (nat_of_ascii c) 237) as [E'|E']; [lia | reflexivity].
Qed.

Lemma encodable_before_plain (s q : string) :
  plain_text q = true -> utf8_encodable (s ++ q) = utf8_encodable s.
Proof.
  intros Hq. induction s as [|c r IH].
  - simpl. now apply plain_text_encodable.
  - change (String c r ++ q) with (String c (r ++ q)). cbn [utf8_encodable].
    destruct r as [|c' r'].
    + cbn [append]. destruct q as [|c' q']; [reflexivity|].
      rewrite (plain_text_encodable _ Hq), andb_true_r.
      cbn [plain_text] in Hq. apply andb_true_iff in Hq. destruct Hq as [Hc' _].
      apply Nat.ltb_lt in Hc'.
      assert (L : (160 <=? nat_of_ascii c')%nat = false) by (apply Nat.leb_gt; lia).
      rewrite L, andb_false_r. reflexivity.
    + change (String c' r' ++ q) with (String c' (r' ++ q)) in *.
      now rewrite IH.
Qed.

Lemma plain_text_zeros (k : nat) : plain_text (zeros k) = true.
Proof. induction k; simpl; auto. Qed.

Lemma plain_text_uint (d : Decimal.uint) : plain_text (NilEmpty.string_of_uint d) = true.
Proof. induction d; simpl; auto. Qed.

Lemma plain_text_string_of_Z (n : Z) : plain_text (string_of_Z n) = true.
Proof.
  unfold string_of_Z.
  assert (H : forall d, plain_text (NilZero.string_of_uint d) = true).
  { intros d. destruct d; try reflexivity; apply (plain_text_uint (_ d)). }
  destruct (Z.to_int n) as [d|d]; simpl; [apply H | apply H].
Qed.

Lemma plain_text_zpad (width : nat) (n : Z) : plain_text (zpad width n) = true.
Proof.
  unfold zpad. cbv zeta.
  now rewrite plain_text_app, plain_text_zeros, plain_text_string_of_Z.
Qed.

Lemma plain_text_stamp (t : datetime) : plain_text (strftime_stamp t) = true.
Proof.
  unfold strftime_stamp.
  now rewrite !plain_text_app, plain_text_string_of_Z, !plain_text_zpad.
Qed.

Lemma plain_text_isoformat (t : datetime) : plain_text (isoformat t) = true.
Proof.
  unfold isoformat. rewrite !plain_text_app, !plain_text_zpad.
  destruct (Z.eqb (microsecond t) 0); [reflexivity|].
  now rewrite plain_text_app, plain_text_zpad.
Qed.

(** The identifier of an agent can always be encoded. *)
Lemma agent_id_encodable (t : datetime) :
  utf8_encodable ("agent_" ++ strftime_stamp t) = true.
Proof.
  apply plain_text_encodable. now rewrite plain_text_app, plain_text_stamp.
Qed.

(** A value found in a renderable dict is renderable. *)
Lemma renderable_lookup (items : list (string * value)) (k : string) (v : value) :
  renderable (VDict items) = true -> lookup k items = Some v -> renderable v = true.
Proof.
  induction items as [|[k' x] rest IH]; cbn [renderable forallb lookup]; [discriminate|].
  intros H Hl. apply andb_true_iff in H. destruct H as [Hx Hrest].
  apply andb_true_iff in Hx. destruct Hx as [_ Hx].
  destruct (String.eqb k k'); [now injection Hl as <- | now apply IH].
Qed.

(** ** Authentication *)

(** C1.  A request to [POST /webhook] whose [X-API-Key] header is absent,
    or is not the configured key (the value of [OMNARA_API_KEY], or the
    default literal when the variable is unset), is answered with status
    401 and the detail "Invalid API key". *)
Theorem webhook_rejects_invalid_key
  (py_repr : value -> string) (env : environ) (now : datetime) (request : Request) :
  x_api_key request <> Some (API_KEY (startup env)) ->
  respond (webhook_handler py_repr (startup env) now request) = invalid_key_response.
Proof.
  intros H. apply key_differs_true in H.
  unfold webhook_handler. rewrite H. reflexivity.
Qed.

Lemma webhook_rejects_invalid_key_witness :
  let request := mkRequest None (BodyJson (VDict [("action", VStr "deploy")])) in
  x_api_key request <> Some (API_KEY (startup [])) /\
  respond (webhook_handler (fun _ => "") (startup []) (mkDatetime 2024 1 2 3 4 5 0) request)
  = invalid_key_response.
Proof.
  split.
  - discriminate.
  - apply (webhook_rejects_invalid_key (fun _ => "") []). discriminate.
Defined.

Example wrong_key_ex :
  respond (webhook_handler (fun _ => "") (startup [("OMNARA_API_KEY", "s3cret")])
             (mkDatetime 2024 1 2 3 4 5 0)
             (json_request (Some "B7hVKeNKPcVIL0lk") [("action", VStr "deploy")]))
  = invalid_key_response.
Proof. reflexivity. Qed.

(** A request with the right key has its body read, first of all. *)
Lemma authenticated_reads_body
  (py_repr : value -> string) (srv : server) (now : datetime) (request : Request) :
  x_api_key request = Some (API_KEY srv) ->
  exists rest, trace (webhook_handler py_repr srv now request) = ReadBody :: rest.
Proof.
  intros H. apply key_differs_false in H.
  unfold webhook_handler. rewrite H.
  unfold try_except, webhook_try, request_json.
  destruct (body request) as [v|e]; simpl.
  - match goal with
    | |- context [outcome (bind ?m ?k)] =>
        destruct (trace_bind_prefix m k) as [rest Hrest];
        destruct (outcome (bind m k)) eqn:E
    end.
    + unfold bind at 1. simpl. eexists. reflexivity.
    + unfold bind at 1. simpl. eexists. reflexivity.
  - eexists. reflexivity.
Qed.

(** C10.  The key is checked before the body is read: with a missing or
    wrong [X-API-Key] the answer is 401 whatever the body is (malformed
    JSON included), no event at all has happened (the body was not read,
    nothing was logged), and the 500 path is not taken. *)
Theorem key_checked_before_body
  (py_repr : value -> string) (srv : server) (now : datetime)
  (key : option string) (b : body_read) :
  key <> Some (API_KEY srv) ->
  let m := webhook_handler py_repr srv now (mkRequest key b) in
  respond m = invalid_key_response /\
  trace m = [] /\
  ~ In ReadBody (trace m) /\
  status (respond m) <> 500%Z.
Proof.
  intros H m. apply key_differs_true in H.
  assert (Hm : m = raise (HTTPException 401 "Invalid API key")).
  { unfold m, webhook_handler. simpl. rewrite H. reflexivity. }
  rewrite Hm. simpl. repeat split; [tauto | discriminate].
Qed.

Lemma key_checked_before_body_witness :
  let b := BodyRaises (PyException "JSONDecodeError"
                         "Expecting value: line 1 column 1 (char 0)") in
  let m := webhook_handler (fun _ => "") (startup []) (mkDatetime 2024 1 2 3 4 5 0)
             (mkRequest (Some "guess") b) in
  Some "guess" <> Some (API_KEY (startup [])) /\
  respond m = invalid_key_response /\ trace m = [] /\
  ~ In ReadBody (trace m) /\ status (respond m) <> 500%Z.
Proof.
  split.
  - discriminate.
  - apply (key_checked_before_body (fun _ => "") (startup [])). discriminate.
Defined.

(** ** The error boundary *)

(** An exception that leaves the block under [try] becomes a 500 whose
    detail is its text. *)
Lemma raised_under_try_is_500
  (py_repr : value -> string) (srv : server) (now : datetime)
  (request : Request) (e : exn) :
  x_api_key request = Some (API_KEY srv) ->
  outcome (webhook_try py_repr now request) = Raise e ->
  respond (webhook_handler py_repr srv now request)
  = mkResponse 500 (VDict [("detail", VStr (str_exn e))]).
Proof.
  intros Hkey Htry. apply key_differs_false in Hkey.
  unfold webhook_handler, respond. rewrite Hkey.
  rewrite (try_except_raise _ _ e Htry). reflexivity.
Qed.

(** C7.  With the right key, when reading the body raises (the body is
    not JSON) or anything else under [try] raises, the answer is 500 and
    its detail is [str(e)] of the exception. *)
Theorem webhook_failure_is_500
  (py_repr : value -> string) (srv : server) (now : datetime)
  (request : Request) (e : exn) :
  x_api_key request = Some (API_KEY srv) ->
  body request = BodyRaises e \/ outcome (webhook_try py_repr now request) = Raise e ->
  respond (webhook_handler py_repr srv now request)
  = mkResponse 500 (VDict [("detail", VStr (str_exn e))]).
Proof.
  intros Hkey Hraise.
  apply raised_under_try_is_500; [exact Hkey|].
  destruct Hraise as [Hb | Ht]; [|exact Ht].
  unfold webhook_try, request_json. rewrite Hb. reflexivity.
Qed.

Lemma webhook_failure_is_500_witness :
  let e := PyException "JSONDecodeError" "Expecting value: line 1 column 1 (char 0)" in
  let request := mkRequest (Some "B7hVKeNKPcVIL0lk") (BodyRaises e) in
  x_api_key request = Some (API_KEY (startup [])) /\
  respond (webhook_handler (fun _ => "") (startup []) (mkDatetime 2024 1 2 3 4 5 0) request)
  = mkResponse 500
      (VDict [("detail", VStr "Expecting value: line 1 column 1 (char 0)")]).
Proof.
  split.
  - reflexivity.
  - apply (webhook_failure_is_500 (fun _ => "") (startup []) (mkDatetime 2024 1 2 3 4 5 0)
             (mkRequest (Some "B7hVKeNKPcVIL0lk")
                (BodyRaises (PyException "JSONDecodeError"
                               "Expecting value: line 1 column 1 (char 0)")))
             (PyException "JSONDecodeError"
                "Expecting value: line 1 column 1 (char 0)")).
    + reflexivity.
    + left. reflexivity.
Defined.

(** A body that is JSON but not an object makes [payload.get] raise. *)
Example payload_not_object_ex :
  respond (webhook_handler (fun _ => "") (startup []) (mkDatetime 2024 1 2 3 4 5 0)
             (mkRequest (Some "B7hVKeNKPcVIL0lk") (BodyJson (VList []))))
  = mkResponse 500
      (VDict [("detail", VStr "'list' object has no attribute 'get'")]).
Proof. reflexivity. Qed.

(** ** Dispatch on the action *)

(** With an object as body, the block under [try] ends as the branch
    chosen by the action ends. *)
Lemma webhook_try_object
  (py_repr : value -> string) (now : datetime) (request : Request)
  (items : list (string * value)) :
  body request = BodyJson (VDict items) ->
  let action := dict_get items "action" (VStr "unknown") in
  let data := dict_get items "data" (VDict []) in
  outcome (webhook_try py_repr now request) =
  outcome (if eq_str action "create_agent" then create_agent now data
           else if eq_str action "deploy" then handle_deploy py_repr data
           else if eq_str action "code_review" then handle_code_review py_repr data
           else ret (VDict [("status", VStr "success");
                            ("message",
                             VStr ("Action '" ++ py_format py_repr action ++ "' received"))])).
Proof.
  intros Hb action data. unfold webhook_try, request_json. rewrite Hb.
  reflexivity.
Qed.

(** Whatever the block under [try] returns, the handler returns. *)
Lemma webhook_handler_outcome
  (py_repr : value -> string) (srv : server) (now : datetime)
  (request : Request) (v : value) :
  x_api_key request = Some (API_KEY srv) ->
  outcome (webhook_try py_repr now request) = Return v ->
  outcome (webhook_handler py_repr srv now request) = Return v.
Proof.
  intros Hkey Hret. apply key_differs_false in Hkey.
  unfold webhook_handler. rewrite Hkey.
  now rewrite (try_except_return _ _ v Hret).
Qed.

(** A returned object that can be rendered is the answer, with status 200. *)
Lemma webhook_handler_returns
  (py_repr : value -> string) (srv : server) (now : datetime)
  (request : Request) (v : value) :
  x_api_key request = Some (API_KEY srv) ->
  outcome (webhook_try py_repr now request) = Return v ->
  renderable v = true ->
  respond (webhook_handler py_repr srv now request) = mkResponse 200 v.
Proof.
  intros Hkey Hret Hv.
  rewrite (respond_return _ v (webhook_handler_outcome py_repr srv now request v Hkey Hret)).
  now rewrite Hv.
Qed.

Lemma eq_str_false (s lit : string) : s <> lit -> eq_str (VStr s) lit = false.
Proof. intros H. simpl. now apply String.eqb_neq. Qed.

(** The acknowledgement can be rendered when the action can be encoded. *)
Lemma acknowledgement_renderable (a : string) :
  renderable (VDict [("status", VStr "success");
                     ("message", VStr ("Action '" ++ a ++ "' received"))])
  = utf8_encodable a.
Proof.
  cbn [renderable forallb].
  change (utf8_encodable "status") with true.
  change (utf8_encodable "success") with true.
  change (utf8_encodable "message") with true.
  cbn [andb]. rewrite andb_true_r.
  rewrite encodable_after_plain by reflexivity.
  now rewrite encodable_before_plain by reflexivity.
Qed.

(** C2 (amended).  With the right key and an object as body whose
    [action] is absent or is a string other than "create_agent", "deploy"
    and "code_review", a string that can be encoded as UTF-8 (no lone
    surrogate), the answer is 200 with [status] "success" and the message
    [Action '<value>' received], with a capital A, where the value is
    "unknown" when [action] is absent. *)
Theorem other_action_acknowledged
  (py_repr : value -> string) (srv : server) (now : datetime)
  (request : Request) (items : list (string * value)) (a : string) :
  x_api_key request = Some (API_KEY srv) ->
  body request = BodyJson (VDict items) ->
  (lookup "action" items = None /\ a = "unknown") \/
    lookup "action" items = Some (VStr a) ->
  a <> "create_agent" -> a <> "deploy" -> a <> "code_review" ->
  utf8_encodable a = true ->
  respond (webhook_handler py_repr srv now request)
  = mkResponse 200
      (VDict [("status", VStr "success");
              ("message", VStr ("Action '" ++ a ++ "' received"))]).
Proof.
  intros Hkey Hb Ha H1 H2 H3 Henc.
  apply webhook_handler_returns; [exact Hkey | |].
  - rewrite (webhook_try_object py_repr now request items Hb).
    assert (Hact : dict_get items "action" (VStr "unknown") = VStr a).
    { unfold dict_get. destruct Ha as [[-> ->] | ->]; reflexivity. }
    rewrite Hact, !eq_str_false by assumption.
    reflexivity.
  - now rewrite acknowledgement_renderable.
Qed.

Lemma other_action_acknowledged_witness :
  let request := json_request (Some "B7hVKeNKPcVIL0lk") [("data", VDict [])] in
  respond (webhook_handler (fun _ => "") (startup []) (mkDatetime 2024 1 2 3 4 5 0) request)
  = mkResponse 200
      (VDict [("status", VStr "success");
              ("message", VStr "Action 'unknown' received")]).
Proof.
  apply (other_action_acknowledged (fun _ => "") (startup [])
           (mkDatetime 2024 1 2 3 4 5 0)
           (json_request (Some "B7hVKeNKPcVIL0lk") [("data", VDict [])])
           [("data", VDict [])] "unknown").
  - reflexivity.
  - reflexivity.
  - left. split; reflexivity.
  - discriminate.
  - discriminate.
  - discriminate.
  - reflexivity.
Defined.

(** C2 as the specification words it fails.  For the action "ping" the
    message is "Action 'ping' received"; it is not the specification's
    [action 'ping' received], nor does that text occur in it.  A body
    that is JSON but no object, such as [null], has no [action] and is
    answered 500.  And an action that is a lone surrogate is a string
    other than the three, is acknowledged by the handler, and the answer
    is the plain 500 of the server because the message cannot be
    encoded. *)
Lemma other_action_message_counterexample :
  let call b :=
    respond (webhook_handler (fun _ => "") (startup [])
               (mkDatetime 2024 1 2 3 4 5 0)
               (mkRequest (Some "B7hVKeNKPcVIL0lk") (BodyJson b))) in
  let r := call (VDict [("action", VStr "ping")]) in
  field "status" (content r) = Some (VStr "success") /\
  field "message" (content r) = Some (VStr "Action 'ping' received") /\
  field "message" (content r) <> Some (VStr (spec_echo_message "ping")) /\
  occurs_in (spec_echo_message "ping") "Action 'ping' received" = false /\
  call VNone
  = mkResponse 500
      (VDict [("detail", VStr "'NoneType' object has no attribute 'get'")]) /\
  call (VDict [("action", VStr lone_surrogate)]) = server_error_response.
Proof.
  repeat split; try reflexivity. discriminate.
Qed.

(** ** Deploy and code review *)



(** Data that is not a dict has no [get]: both handlers raise at their
    first line. *)
Lemma handle_deploy_not_dict (py_repr : value -> string) (data : value) :
  (forall d, data <> VDict d) ->
  outcome (handle_deploy py_repr data) = Raise (no_attribute_get data).
Proof.
  intros H. destruct data; try reflexivity. now destruct (H items).
Qed.

Lemma handle_code_review_not_dict (py_repr : value -> string) (data : value) :
  (forall d, data <> VDict d) ->
  outcome (handle_code_review py_repr data) = Raise (no_attribute_get data).
Proof.
  intros H. destruct data; try reflexivity. now destruct (H items).
Qed.

Lemma data_of_items (items d : list (string * value)) :
  (lookup "data" items = None /\ d = []) \/ lookup "data" items = Some (VDict d) ->
  dict_get items "data" (VDict []) = VDict d.
Proof. unfold dict_get. intros [[-> ->] | ->]; reflexivity. Qed.

Lemma action_of_items (items : list (string * value)) (a : string) :
  lookup "action" items = Some (VStr a) ->
  dict_get items "action" (VStr "unknown") = VStr a.
Proof. unfold dict_get. now intros ->. Qed.

(** With the right key, "deploy" or "code_review" and data that is not a
    dict end in the error boundary, with the text of the [AttributeError]. *)
Lemma handlers_reject_other_data
  (py_repr : value -> string) (srv : server) (now : datetime)
  (request : Request) (items : list (string * value)) (a : string) (data : value) :
  x_api_key request = Some (API_KEY srv) ->
  body request = BodyJson (VDict items) ->
  lookup "action" items = Some (VStr a) ->
  a = "deploy" \/ a = "code_review" ->
  lookup "data" items = Some data ->
  (forall d, data <> VDict d) ->
  respond (webhook_handler py_repr srv now request)
  = mkResponse 500
      (VDict [("detail",
               VStr ("'" ++ type_name data ++ "' object has no attribute 'get'"))]).
Proof.
  intros Hkey Hb Ha Hcase Hd Hnd.
  apply (raised_under_try_is_500 py_repr srv now request (no_attribute_get data) Hkey).
  rewrite (webhook_try_object py_repr now request items Hb).
  rewrite (action_of_items items a Ha).
  unfold dict_get at 1 2 3. rewrite Hd.
  destruct Hcase as [-> | ->]; cbn [eq_str String.eqb Ascii.eqb Bool.eqb].
  - now apply handle_deploy_not_dict.
  - now apply handle_code_review_not_dict.
Qed.









(** ** Time stamps *)

Lemma all_below_spec (P : Z -> bool) (n : nat) :
  all_below P n = true ->
  forall z, (0 <= z < Z.of_nat n)%Z -> P z = true.
Proof.
  induction n as [|k IH]; simpl; intros H z Hz; [lia|].
  apply andb_true_iff in H. destruct H as [Hk Hrest].
  destruct (Z.eq_dec z (Z.of_nat k)) as [-> | Hne]; [exact Hk|].
  apply IH; [exact Hrest | lia].
Qed.

Lemma zpad2_fills (n : Z) : (0 <= n < 100)%Z -> fills 2 n = true.
Proof.
  intros H. apply (all_below_spec (fills 2) (Z.to_nat 100)).
  - vm_compute. reflexivity.
  - rewrite Z2Nat.id; lia.
Qed.

Lemma zpad4_fills (n : Z) : (0 <= n < 10000)%Z -> fills 4 n = true.
Proof.
  intros H. apply (all_below_spec (fills 4) (Z.to_nat 10000)).
  - vm_compute. reflexivity.
  - rewrite Z2Nat.id; lia.
Qed.






Lemma count_digits_app (a b : string) :
  count_digits (a ++ b) = (count_digits a + count_digits b)%nat.
Proof. induction a as [|c a IH]; simpl; [reflexivity | rewrite IH; lia]. Qed.

Lemma count_fills (width : nat) (n : Z) :
  fills width n = true -> count_digits (zpad width n) = width.
Proof.
  unfold fills. intros H. apply andb_true_iff in H. destruct H as [Hl Hd].
  apply Nat.eqb_eq in Hl. rewrite <- Hl at 2. clear Hl.
  induction (zpad width n) as [|c s IH]; simpl in *; [reflexivity|].
  apply andb_true_iff in Hd. destruct Hd as [Hc Hs]. rewrite Hc, IH by exact Hs.
  reflexivity.
Qed.

(** From the year 1000 on the year is printed on four digits, as if
    padded. *)
Lemma year_text (y : Z) : (1000 <= y <= 9999)%Z -> string_of_Z y = zpad 4 y.
Proof.
  intros H.
  assert (E : ((y <? 1000)%Z || String.eqb (string_of_Z y) (zpad 4 y)) = true).
  { apply (all_below_spec
             (fun y => (y <? 1000)%Z || String.eqb (string_of_Z y) (zpad 4 y))
             (Z.to_nat 10000)).
    - vm_compute. reflexivity.
    - rewrite Z2Nat.id; lia. }
  apply orb_true_iff in E. destruct E as [E | E].
  - apply Z.ltb_lt in E. lia.
  - now apply String.eqb_eq in E.
Qed.


(** The stamp does not look at the microsecond. *)
Lemma stamp_second_granularity (y mo d h mi s us us' : Z) :
  strftime_stamp (mkDatetime y mo d h mi s us) =
  strftime_stamp (mkDatetime y mo d h mi s us').
Proof. reflexivity. Qed.

(** ** Agent creation *)

(** The values Python takes for false. *)
Lemma falsy_values (v : value) :
  truthy v = false <->
  v = VNone \/ v = VBool false \/ v = VInt 0 \/
  (exists sign, v = VFloat (S754_zero sign)) \/
  v = VStr "" \/ v = VList [] \/ v = VDict [].
Proof.
  split.
  - destruct v as [|b|z|f|s|l|items]; simpl; intros H.
    + now left.
    + right; left. now subst.
    + right; right; left. apply negb_false_iff, Z.eqb_eq in H. now subst.
    + right; right; right; left. destruct f; try discriminate. now eexists.
    + do 4 right; left. apply negb_false_iff, String.eqb_eq in H. now subst.
    + do 5 right; left. destruct l; [reflexivity | discriminate].
    + do 6 right. destruct items; [reflexivity | discriminate].
  - intros [-> | [-> | [-> | [[sign ->] | [-> | [-> | ->]]]]]]; reflexivity.
Qed.

(** What [create_agent] returns: one clock reading, no other event. *)
Lemma create_agent_eq (now : datetime) (data : value) :
  create_agent now data =
  mkM [UtcNow]
    (Return (VDict [("status", VStr "success");
                    ("agent_id", VStr ("agent_" ++ strftime_stamp now));
                    ("message", VStr "Agent created successfully");
                    ("config", if truthy data then data else VDict [])])).
Proof. unfold create_agent. destruct (truthy data); reflexivity. Qed.

(** Both routes end as the call of [create_agent] ends. *)
Lemma invocation_outcome
  (py_repr : value -> string) (srv : server) (now : datetime)
  (r : http_request) (d : value) :
  invokes_create_agent srv r d ->
  outcome (route py_repr srv now r) = outcome (create_agent now d).
Proof.
  intros [request items Hkey Hb Ha | data].
  - cbn [route]. rewrite create_agent_eq.
    apply webhook_handler_outcome; [exact Hkey|].
    rewrite (webhook_try_object py_repr now request items Hb).
    rewrite (action_of_items items "create_agent" Ha).
    cbn [eq_str String.eqb Ascii.eqb Bool.eqb].
    now rewrite create_agent_eq.
  - reflexivity.
Qed.

(** Both routes answer what the call of [create_agent] answers. *)
Lemma invocation_response
  (py_repr : value -> string) (srv : server) (now : datetime)
  (r : http_request) (d : value) :
  invokes_create_agent srv r d ->
  respond (route py_repr srv now r) = respond (create_agent now d).
Proof.
  intros Hinv. apply respond_outcome. now apply invocation_outcome.
Qed.

(** The answer of [create_agent] can be rendered when its [config] can. *)
Lemma create_agent_answer_renderable (now : datetime) (config : value) :
  renderable (VDict [("status", VStr "success");
                     ("agent_id", VStr ("agent_" ++ strftime_stamp now));
                     ("message", VStr "Agent created successfully");
                     ("config", config)])
  = renderable config.
Proof.
  cbn [renderable forallb]. rewrite agent_id_encodable.
  change (utf8_encodable "status") with true.
  change (utf8_encodable "success") with true.
  change (utf8_encodable "agent_id") with true.
  change (utf8_encodable "message") with true.
  change (utf8_encodable "Agent created successfully") with true.
  change (utf8_encodable "config") with true.
  cbn [andb]. now rewrite andb_true_r.
Qed.

(** A value that is false in Python can always be rendered. *)
Lemma falsy_renderable (d : value) : truthy d = false -> renderable d = true.
Proof.
  destruct d as [|b|z|f|s|l|items]; cbn [truthy renderable]; try reflexivity.
  - destruct f; [reflexivity | discriminate ..].
  - intros H. apply negb_false_iff, String.eqb_eq in H. now subst.
  - destruct l; [reflexivity | discriminate].
  - destruct items; [reflexivity | discriminate].
Qed.

(** What is sent for a call of [create_agent]. *)
Lemma respond_create_agent (now : datetime) (d : value) :
  respond (create_agent now d) =
  if renderable d
  then mkResponse 200
         (VDict [("status", VStr "success");
                 ("agent_id", VStr ("agent_" ++ strftime_stamp now));
                 ("message", VStr "Agent created successfully");
                 ("config", if truthy d then d else VDict [])])
  else server_error_response.
Proof.
  rewrite create_agent_eq. unfold respond. cbn [outcome].
  rewrite create_agent_answer_renderable.
  destruct (truthy d) eqn:Ht; [reflexivity|].
  now rewrite (falsy_renderable d Ht).
Qed.





(** C9.  For every request [r] that reaches [create_agent] with data [d]
    that is false in Python ([None], [False], 0, 0.0, "", [[]], [{}];
    absent data stands for [{}] in the webhook and for [None] in
    [POST /api/agents]), the [config] of the answer is the empty dict. *)
Theorem falsy_data_empty_config
  (py_repr : value -> string) (srv : server) (now : datetime)
  (r : http_request) (d : value) :
  invokes_create_agent srv r d ->
  truthy d = false ->
  field "config" (content (respond (route py_repr srv now r))) = Some (VDict []) /\
  field "config" (content (respond (create_agent now d))) = Some (VDict []).
Proof.
  intros Hinv Hd.
  rewrite (invocation_response py_repr srv now r d Hinv), respond_create_agent.
  rewrite (falsy_renderable d Hd), Hd.
  split; reflexivity.
Qed.

Lemma falsy_data_empty_config_witness :
  let now := mkDatetime 2024 1 2 3 4 5 0 in
  let r := POST_webhook (json_request (Some "B7hVKeNKPcVIL0lk")
                           [("action", VStr "create_agent"); ("data", VStr "")]) in
  field "config" (content (respond (route (fun _ => "") (startup []) now r)))
  = Some (VDict []) /\
  field "config" (content (respond (create_agent now (VStr "")))) = Some (VDict []).
Proof.
  apply (falsy_data_empty_config (fun _ => "") (startup [])
           (mkDatetime 2024 1 2 3 4 5 0)
           (POST_webhook (json_request (Some "B7hVKeNKPcVIL0lk")
                            [("action", VStr "create_agent"); ("data", VStr "")]))
           (VStr "")).
  - apply (via_webhook (startup [])
             (json_request (Some "B7hVKeNKPcVIL0lk")
                [("action", VStr "create_agent"); ("data", VStr "")])
             [("action", VStr "create_agent"); ("data", VStr "")]).
    + reflexivity.
    + reflexivity.
    + reflexivity.
  - reflexivity.
Defined.

(** Absent data: the webhook passes [{}], [POST /api/agents] passes
    [None]; both are false in Python. *)
Example absent_data_ex :
  let now := mkDatetime 2024 1 2 3 4 5 0 in
  field "config"
    (content (respond (route (fun _ => "") (startup []) now
                         (POST_webhook (json_request (Some "B7hVKeNKPcVIL0lk")
                                          [("action", VStr "create_agent")])))))
  = Some (VDict []) /\
  field "config"
    (content (respond (route (fun _ => "") (startup []) now (POST_api_agents None))))
  = Some (VDict []).
Proof. split; reflexivity. Qed.

(** [POST /api/agents] without a body: the handler gets [None]. *)
Example create_agent_no_body_ex :
  respond (route (fun _ => "") (startup []) (mkDatetime 2024 1 2 3 4 5 0)
             (POST_api_agents None))
  = mkResponse 200
      (VDict [("status", VStr "success");
              ("agent_id", VStr "agent_20240102_030405");
              ("message", VStr "Agent created successfully");
              ("config", VDict [])]).
Proof. reflexivity. Qed.

(** C8.  For every dict [d] and every time, the webhook with the right
    key, the action "create_agent" and [d] as data answers exactly what
    [POST /api/agents] answers for the body [d]: both end in the same
    call of [create_agent]. *)
Theorem webhook_create_agent_as_direct
  (py_repr : value -> string) (srv : server) (now : datetime)
  (request : Request) (items d : list (string * value)) :
  x_api_key request = Some (API_KEY srv) ->
  body request = BodyJson (VDict items) ->
  lookup "action" items = Some (VStr "create_agent") ->
  lookup "data" items = Some (VDict d) ->
  respond (route py_repr srv now (POST_webhook request))
  = respond (route py_repr srv now (POST_api_agents (Some d))) /\
  outcome (route py_repr srv now (POST_webhook request))
  = outcome (create_agent now (VDict d)).
Proof.
  intros Hkey Hb Ha Hd.
  assert (Htry : outcome (webhook_try py_repr now request)
                 = outcome (create_agent now (VDict d))).
  { rewrite (webhook_try_object py_repr now request items Hb).
    rewrite (action_of_items items "create_agent" Ha).
    rewrite (data_of_items items d (or_intror Hd)). reflexivity. }
  cbn [route body_param].
  rewrite create_agent_eq in Htry |- *.
  pose proof (webhook_handler_outcome py_repr srv now request _ Hkey Htry) as Hout.
  split; [|exact Hout].
  apply respond_outcome. exact Hout.
Qed.

Lemma webhook_create_agent_as_direct_witness :
  let now := mkDatetime 2024 1 2 3 4 5 0 in
  let d := [("name", VStr "x")] in
  let request := json_request (Some "B7hVKeNKPcVIL0lk")
                   [("action", VStr "create_agent"); ("data", VDict d)] in
  respond (route (fun _ => "") (startup []) now (POST_webhook request))
  = respond (route (fun _ => "") (startup []) now (POST_api_agents (Some d))) /\
  outcome (route (fun _ => "") (startup []) now (POST_webhook request))
  = outcome (create_agent now (VDict d)).
Proof.
  apply (webhook_create_agent_as_direct (fun _ => "") (startup [])
           (mkDatetime 2024 1 2 3 4 5 0)
           (json_request (Some "B7hVKeNKPcVIL0lk")
              [("action", VStr "create_agent");
               ("data", VDict [("name", VStr "x")])])
           [("action", VStr "create_agent"); ("data", VDict [("name", VStr "x")])]
           [("name", VStr "x")]).
  - reflexivity.
  - reflexivity.
  - reflexivity.
  - reflexivity.
Defined.

(** ** Agent listing and the absence of state *)

(** Serving requests leaves the module state as it was. *)
Lemma serve_state (py_repr : value -> string) (srv : server)
  (history : list (datetime * http_request)) :
  fst (serve py_repr srv history) = srv.
Proof.
  revert srv. induction history as [|tr rest IH]; intros srv; simpl.
  - reflexivity.
  - specialize (IH srv). destruct (serve py_repr srv rest). exact IH.
Qed.

Lemma serve_app (py_repr : value -> string) (srv : server)
  (h1 h2 : list (datetime * http_request)) :
  snd (serve py_repr srv (h1 ++ h2))
  = (snd (serve py_repr srv h1) ++ snd (serve py_repr srv h2))%list.
Proof.
  revert srv. induction h1 as [|tr rest IH]; intros srv; simpl.
  - reflexivity.
  - specialize (IH srv).
    destruct (serve py_repr srv (rest ++ h2)), (serve py_repr srv rest).
    simpl in *. now rewrite IH.
Qed.

(** C6.  [GET /api/agents] answers the same fixed pair of descriptors
    (agent_1, running, 2024-01-01 and agent_2, stopped, 2024-01-02) after
    any history of requests, create_agent requests included, and that
    history answers as it would have done alone. *)
Theorem list_agents_fixed
  (py_repr : value -> string) (srv : server)
  (history : list (datetime * http_request)) (now : datetime) :
  snd (serve py_repr srv (history ++ [(now, GET_api_agents)]))
  = (snd (serve py_repr srv history) ++ [mkResponse 200 fixed_agents])%list.
Proof.
  rewrite serve_app. reflexivity.
Qed.

Example list_after_create_ex :
  let key := Some "B7hVKeNKPcVIL0lk" in
  let t := mkDatetime 2024 1 2 3 4 5 0 in
  nth_error
    (snd (serve (fun _ => "") (startup [])
            [(t, POST_api_agents (Some [("name", VStr "x")]));
             (t, POST_webhook (json_request key [("action", VStr "create_agent")]));
             (t, GET_api_agents)])) 2
  = Some (mkResponse 200 fixed_agents).
Proof. reflexivity. Qed.

(** * Further properties of the handlers *)

(** ** The webhook, branch by branch *)

(** Events and end of [handle_deploy]: data that is not a dict raises
    before anything is logged. *)
Lemma handle_deploy_eq (py_repr : value -> string) (data : value) :
  handle_deploy py_repr data =
  match data with
  | VDict d =>
      let environment := dict_get d "environment" (VStr "production") in
      let version := dict_get d "version" (VStr "latest") in
      mkM [LogInfo ("Deploying version " ++ py_format py_repr version ++ " to " ++
                    py_format py_repr environment)]
        (Return (VDict [("status", VStr "success");
                        ("message", VStr "Deployment initiated");
                        ("environment", environment);
                        ("version", version)]))
  | _ => mkM [] (Raise (no_attribute_get data))
  end.
Proof. destruct data; reflexivity. Qed.

Lemma handle_code_review_eq (py_repr : value -> string) (data : value) :
  handle_code_review py_repr data =
  match data with
  | VDict d =>
      let repository := dict_get d "repository" (VStr "unknown") in
      let branch := dict_get d "branch" (VStr "main") in
      mkM [LogInfo ("Code review for " ++ py_format py_repr repository ++ ":" ++
                    py_format py_repr branch)]
        (Return (VDict [("status", VStr "success");
                        ("message", VStr "Code review initiated");
                        ("repository", repository);
                        ("branch", branch)]))
  | _ => mkM [] (Raise (no_attribute_get data))
  end.
Proof. destruct data; reflexivity. Qed.

(** What the error boundary makes of an exception [e] raised after the
    events [before]. *)
Lemma try_except_boundary (before : list event) (e : exn) :
  try_except (A := value) (mkM before (Raise e))
    (fun e => logger_error ("Webhook error: " ++ str_exn e) ;;
              raise (HTTPException 500 (str_exn e)))
  = mkM (before ++ [LogError ("Webhook error: " ++ str_exn e)])
      (Raise (HTTPException 500 (str_exn e))).
Proof. reflexivity. Qed.

(** The block under [try] when the body is an object: the body is read,
    the action is logged, then the chosen branch runs. *)
Lemma webhook_try_object_eq
  (py_repr : value -> string) (now : datetime) (request : Request)
  (items : list (string * value)) :
  body request = BodyJson (VDict items) ->
  let action := dict_get items "action" (VStr "unknown") in
  let data := dict_get items "data" (VDict []) in
  let branch :=
    if eq_str action "create_agent" then create_agent now data
    else if eq_str action "deploy" then handle_deploy py_repr data
    else if eq_str action "code_review" then handle_code_review py_repr data
    else ret (VDict [("status", VStr "success");
                     ("message",
                      VStr ("Action '" ++ py_format py_repr action ++ "' received"))]) in
  webhook_try py_repr now request =
  mkM (ReadBody :: LogInfo ("Webhook received: action=" ++ py_format py_repr action)
         :: trace branch)
    (outcome branch).
Proof.
  intros Hb action data branch. unfold webhook_try, request_json. rewrite Hb.
  reflexivity.
Qed.

(** The block under [try] when the body is no object. *)
Lemma webhook_try_other_eq
  (py_repr : value -> string) (now : datetime) (request : Request) :
  match body request with
  | BodyJson (VDict _) => True
  | BodyJson v => webhook_try py_repr now request = mkM [ReadBody] (Raise (no_attribute_get v))
  | BodyRaises e => webhook_try py_repr now request = mkM [ReadBody] (Raise e)
  end.
Proof.
  unfold webhook_try, request_json.
  destruct (body request) as [v|e]; [destruct v|]; try reflexivity; exact I.
Qed.

(** Every run of [webhook_handler]: its events, in order, and its end. *)
Lemma webhook_handler_eq
  (py_repr : value -> string) (srv : server) (now : datetime) (request : Request) :
  webhook_handler py_repr srv now request =
  if key_differs (x_api_key request) (API_KEY srv)
  then mkM [] (Raise (HTTPException 401 "Invalid API key"))
  else
    let failed before e :=
      mkM (before ++ [LogError ("Webhook error: " ++ str_exn e)])
        (Raise (HTTPException 500 (str_exn e))) in
    match body request with
    | BodyRaises e => failed [ReadBody] e
    | BodyJson (VDict items) =>
        let action := dict_get items "action" (VStr "unknown") in
        let data := dict_get items "data" (VDict []) in
        let received :=
          LogInfo ("Webhook received: action=" ++ py_format py_repr action) in
        if eq_str action "create_agent" then
          mkM [ReadBody; received; UtcNow]
            (Return (VDict [("status", VStr "success");
                            ("agent_id", VStr ("agent_" ++ strftime_stamp now));
                            ("message", VStr "Agent created successfully");
                            ("config", if truthy data then data else VDict [])]))
        else if eq_str action "deploy" then
          match data with
          | VDict d =>
              let environment := dict_get d "environment" (VStr "production") in
              let version := dict_get d "version" (VStr "latest") in
              mkM [ReadBody; received;
                   LogInfo ("Deploying version " ++ py_format py_repr version ++
                            " to " ++ py_format py_repr environment)]
                (Return (VDict [("status", VStr "success");
                                ("message", VStr "Deployment initiated");
                                ("environment", environment);
                                ("version", version)]))
          | _ => failed [ReadBody; received] (no_attribute_get data)
          end
        else if eq_str action "code_review" then
          match data with
          | VDict d =>
              let repository := dict_get d "repository" (VStr "unknown") in
              let branch := dict_get d "branch" (VStr "main") in
              mkM [ReadBody; received;
                   LogInfo ("Code review for " ++ py_format py_repr repository ++
                            ":" ++ py_format py_repr branch)]
                (Return (VDict [("status", VStr "success");
                                ("message", VStr "Code review initiated");
                                ("repository", repository);
                                ("branch", branch)]))
          | _ => failed [ReadBody; received] (no_attribute_get data)
          end
        else
          mkM [ReadBody; received]
            (Return (VDict [("status", VStr "success");
                            ("message",
                             VStr ("Action '" ++ py_format py_repr action ++
                                   "' received"))]))
    | BodyJson v => failed [ReadBody] (no_attribute_get v)
    end.
Proof.
  unfold webhook_handler.
  destruct (key_differs (x_api_key request) (API_KEY srv)); [reflexivity|].
  pose proof (webhook_try_other_eq py_repr now request) as Hother.
  destruct (body request) as [v|e] eqn:Hb.
  - destruct v as [|b|z|f|s|l|items];
      try (rewrite Hother; apply try_except_boundary).
    rewrite (webhook_try_object_eq py_repr now request items Hb).
    cbv zeta.
    destruct (eq_str (dict_get items "action" (VStr "unknown")) "create_agent").
    { rewrite create_agent_eq. reflexivity. }
    destruct (eq_str (dict_get items "action" (VStr "unknown")) "deploy").
    { rewrite handle_deploy_eq.
      destruct (dict_get items "data" (VDict [])); reflexivity. }
    destruct (eq_str (dict_get items "action" (VStr "unknown")) "code_review").
    { rewrite handle_code_review_eq.
      destruct (dict_get items "data" (VDict [])); reflexivity. }
    reflexivity.
  - rewrite Hother. apply try_except_boundary.
Qed.

Lemma eq_str_true (v : value) (lit : string) : eq_str v lit = true -> v = VStr lit.
Proof.
  destruct v; simpl; try discriminate. intros H. apply String.eqb_eq in H. now subst.
Qed.

Lemma eq_str_differs (v : value) (lit : string) : v <> VStr lit -> eq_str v lit = false.
Proof.
  intros H. destruct (eq_str v lit) eqn:E; [|reflexivity].
  now apply eq_str_true in E.
Qed.

(** The three ends of a run: rejected for the key; failed, with one error
    log as last event; or answered, with no error log at all. *)
Lemma webhook_runs
  (py_repr : value -> string) (srv : server) (now : datetime) (request : Request) :
  let m := webhook_handler py_repr srv now request in
  if key_differs (x_api_key request) (API_KEY srv)
  then m = mkM [] (Raise (HTTPException 401 "Invalid API key"))
  else if webhook_fails request
  then exists before e,
      m = mkM (ReadBody :: before ++ [LogError ("Webhook error: " ++ str_exn e)])
            (Raise (HTTPException 500 (str_exn e))) /\
      existsb is_error_log before = false
  else exists events v msg,
      m = mkM (ReadBody :: events) (Return v) /\
      existsb is_error_log events = false /\
      field "status" v = Some (VStr "success") /\
      field "message" v = Some (VStr msg).
Proof.
  cbv zeta. rewrite webhook_handler_eq.
  destruct (key_differs (x_api_key request) (API_KEY srv)); [reflexivity|].
  unfold webhook_fails.
  destruct (body request) as [v|e].
  - destruct v as [|b|z|f|s|l|items];
      try (exists [], (no_attribute_get VNone); split; reflexivity);
      try (eexists [], (no_attribute_get _); split; reflexivity).
    cbv zeta.
    destruct (eq_str (dict_get items "action" (VStr "unknown")) "create_agent") eqn:E1.
    { apply eq_str_true in E1. rewrite E1. cbn [eq_str String.eqb Ascii.eqb Bool.eqb orb andb].
      do 3 eexists. repeat split; reflexivity. }
    destruct (eq_str (dict_get items "action" (VStr "unknown")) "deploy") eqn:E2.
    { cbn [orb andb].
      destruct (dict_get items "data" (VDict [])); cbn [is_dict negb];
        try (eexists [_], (no_attribute_get _); split; reflexivity).
      do 3 eexists. repeat split; reflexivity. }
    destruct (eq_str (dict_get items "action" (VStr "unknown")) "code_review") eqn:E3.
    { cbn [orb andb].
      destruct (dict_get items "data" (VDict [])); cbn [is_dict negb];
        try (eexists [_], (no_attribute_get _); split; reflexivity).
      do 3 eexists. repeat split; reflexivity. }
    cbn [orb andb]. do 3 eexists. repeat split; reflexivity.
  - exists [], e. split; reflexivity.
Qed.

(** ** Status codes and the shape of answers *)


(** X2.  The answer is 401 exactly when the header is absent or differs
    from the key: with the right key no request is answered 401, whatever
    its body. *)
Theorem unauthorized_iff_key_differs
  (py_repr : value -> string) (srv : server) (now : datetime) (request : Request) :
  status (respond (webhook_handler py_repr srv now request)) = 401%Z <->
  x_api_key request <> Some (API_KEY srv).
Proof.
  rewrite <- key_differs_true.
  pose proof (webhook_runs py_repr srv now request) as H. cbv zeta in H.
  destruct (key_differs (x_api_key request) (API_KEY srv)).
  - rewrite H. split; reflexivity.
  - destruct (webhook_fails request).
    + destruct H as (before & e & -> & _). split; discriminate.
    + destruct H as (events & v & msg & -> & _).
      unfold respond. cbn [outcome]. destruct (renderable v); split; discriminate.
Qed.


(** X4.  A 200 answer of the webhook always carries [status] "success"
    and a [message] that is a string; every other answer is either
    exactly [{"detail": <string>}] or the plain 500 of the server. *)
Theorem webhook_answer_shape
  (py_repr : value -> string) (srv : server) (now : datetime) (request : Request) :
  let r := respond (webhook_handler py_repr srv now request) in
  (status r = 200%Z /\
   field "status" (content r) = Some (VStr "success") /\
   exists msg, field "message" (content r) = Some (VStr msg)) \/
  (status r <> 200%Z /\
   ((exists detail, content r = VDict [("detail", VStr detail)]) \/
    r = server_error_response)).
Proof.
  pose proof (webhook_runs py_repr srv now request) as H. cbv zeta in *.
  destruct (key_differs (x_api_key request) (API_KEY srv)).
  - right. rewrite H. split; [discriminate | left; eexists; reflexivity].
  - destruct (webhook_fails request).
    + destruct H as (before & e & -> & _).
      right. split; [discriminate | left; eexists; reflexivity].
    + destruct H as (events & v & msg & -> & _ & Hs & Hm).
      unfold respond. cbn [outcome]. destruct (renderable v).
      * left. split; [reflexivity|]. split; [exact Hs|]. exists msg. exact Hm.
      * right. split; [discriminate | now right].
Qed.

(** ** What is logged *)


(** X6.  With the right key and an object as body, the first two events
    are the reading of the body and the log "Webhook received:
    action=<action>", also when the request then fails; a body that is no
    object, or no JSON, is never logged as received. *)
Theorem received_logged_first
  (py_repr : value -> string) (srv : server) (now : datetime) (request : Request) :
  x_api_key request = Some (API_KEY srv) ->
  let m := webhook_handler py_repr srv now request in
  match body request with
  | BodyJson (VDict items) =>
      exists rest,
        trace m = ReadBody
                  :: LogInfo ("Webhook received: action=" ++
                              py_format py_repr (dict_get items "action" (VStr "unknown")))
                  :: rest
  | BodyJson v =>
      trace m = [ReadBody; LogError ("Webhook error: " ++ str_exn (no_attribute_get v))]
  | BodyRaises e =>
      trace m = [ReadBody; LogError ("Webhook error: " ++ str_exn e)]
  end.
Proof.
  intros Hkey. apply key_differs_false in Hkey. cbv zeta.
  rewrite webhook_handler_eq, Hkey.
  destruct (body request) as [v|e]; [|reflexivity].
  destruct v as [|b|z|f|s|l|items]; try reflexivity.
  cbv zeta.
  destruct (eq_str _ "create_agent"); [eexists; reflexivity|].
  destruct (eq_str _ "deploy");
    [destruct (dict_get items "data" (VDict [])); eexists; reflexivity|].
  destruct (eq_str _ "code_review");
    [destruct (dict_get items "data" (VDict [])); eexists; reflexivity|].
  eexists; reflexivity.
Qed.

Lemma received_logged_first_witness :
  let request := json_request (Some "B7hVKeNKPcVIL0lk")
                   [("action", VStr "deploy"); ("data", VInt 7)] in
  exists rest,
    trace (webhook_handler (fun _ => "") (startup []) (mkDatetime 2024 1 2 3 4 5 0) request)
    = ReadBody :: LogInfo "Webhook received: action=deploy" :: rest.
Proof.
  apply (received_logged_first (fun _ => "") (startup [])
           (mkDatetime 2024 1 2 3 4 5 0)
           (json_request (Some "B7hVKeNKPcVIL0lk")
              [("action", VStr "deploy"); ("data", VInt 7)])).
  reflexivity.
Defined.

(** ** Bodies and actions outside the expected shape *)

(** X7.  With the right key, a body that is JSON but not an object
    ([null], a number, a string, a list, a boolean) is answered 500, and
    the detail names the Python type of the body. *)
Theorem payload_not_object_is_500
  (py_repr : value -> string) (srv : server) (now : datetime)
  (request : Request) (v : value) :
  x_api_key request = Some (API_KEY srv) ->
  body request = BodyJson v ->
  is_dict v = false ->
  respond (webhook_handler py_repr srv now request)
  = mkResponse 500
      (VDict [("detail",
               VStr ("'" ++ type_name v ++ "' object has no attribute 'get'"))]).
Proof.
  intros Hkey Hb Hv. apply key_differs_false in Hkey.
  rewrite webhook_handler_eq, Hkey, Hb.
  destruct v; try reflexivity. discriminate.
Qed.

Lemma payload_not_object_is_500_witness :
  respond (webhook_handler (fun _ => "") (startup []) (mkDatetime 2024 1 2 3 4 5 0)
             (mkRequest (Some "B7hVKeNKPcVIL0lk") (BodyJson VNone)))
  = mkResponse 500
      (VDict [("detail", VStr "'NoneType' object has no attribute 'get'")]).
Proof.
  apply (payload_not_object_is_500 (fun _ => "") (startup [])
           (mkDatetime 2024 1 2 3 4 5 0)
           (mkRequest (Some "B7hVKeNKPcVIL0lk") (BodyJson VNone)) VNone).
  - reflexivity.
  - reflexivity.
  - reflexivity.
Defined.

(** X8.  With the right key and an object as body, an action that is
    none of the three strings (another string, or a value that is no
    string at all: [null], a number, a list) makes the handler return
    the acknowledgement "Action '<str(action)>' received" after the body
    read and the received log only; the data is not looked at, so it may
    be of any type.  The acknowledgement is the answer, with 200, when
    [str(action)] can be encoded, and the answer is the plain 500 of the
    server when it cannot. *)
Theorem unmatched_action_acknowledged
  (py_repr : value -> string) (srv : server) (now : datetime)
  (request : Request) (items : list (string * value)) (action : value) :
  x_api_key request = Some (API_KEY srv) ->
  body request = BodyJson (VDict items) ->
  dict_get items "action" (VStr "unknown") = action ->
  action <> VStr "create_agent" ->
  action <> VStr "deploy" ->
  action <> VStr "code_review" ->
  let acknowledgement :=
    VDict [("status", VStr "success");
           ("message",
            VStr ("Action '" ++ py_format py_repr action ++ "' received"))] in
  webhook_handler py_repr srv now request
  = mkM [ReadBody; LogInfo ("Webhook received: action=" ++ py_format py_repr action)]
      (Return acknowledgement) /\
  respond (webhook_handler py_repr srv now request)
  = (if utf8_encodable (py_format py_repr action)
     then mkResponse 200 acknowledgement
     else server_error_response).
Proof.
  intros Hkey Hb Ha H1 H2 H3 acknowledgement. apply key_differs_false in Hkey.
  assert (E : webhook_handler py_repr srv now request
              = mkM [ReadBody;
                     LogInfo ("Webhook received: action=" ++ py_format py_repr action)]
                  (Return acknowledgement)).
  { rewrite webhook_handler_eq, Hkey, Hb. cbv zeta. rewrite Ha.
    rewrite !eq_str_differs by assumption. reflexivity. }
  split; [exact E|].
  rewrite E. unfold respond, acknowledgement. cbn [outcome].
  now rewrite acknowledgement_renderable.
Qed.

Lemma unmatched_action_acknowledged_witness :
  let request := json_request (Some "B7hVKeNKPcVIL0lk")
                   [("action", VNone); ("data", VInt 7)] in
  let acknowledgement :=
    VDict [("status", VStr "success");
           ("message", VStr "Action 'None' received")] in
  webhook_handler (fun _ => "") (startup []) (mkDatetime 2024 1 2 3 4 5 0) request
  = mkM [ReadBody; LogInfo "Webhook received: action=None"] (Return acknowledgement) /\
  respond (webhook_handler (fun _ => "") (startup []) (mkDatetime 2024 1 2 3 4 5 0) request)
  = (if utf8_encodable "None"
     then mkResponse 200 acknowledgement
     else server_error_response).
Proof.
  apply (unmatched_action_acknowledged (fun _ => "") (startup [])
           (mkDatetime 2024 1 2 3 4 5 0)
           (json_request (Some "B7hVKeNKPcVIL0lk")
              [("action", VNone); ("data", VInt 7)])
           [("action", VNone); ("data", VInt 7)] VNone).
  - reflexivity.
  - reflexivity.
  - reflexivity.
  - discriminate.
  - discriminate.
  - discriminate.
Defined.

(** ** The clock *)

(** X9.  Only "create_agent" looks at the clock: a request to the webhook
    whose action is not "create_agent" runs the same at any two times
    (same events, same answer) and never reads the clock. *)
Theorem webhook_time_independent
  (py_repr : value -> string) (srv : server) (now now' : datetime) (request : Request) :
  asks_create_agent request = false ->
  webhook_handler py_repr srv now request = webhook_handler py_repr srv now' request /\
  existsb is_clock_read (trace (webhook_handler py_repr srv now request)) = false.
Proof.
  unfold asks_create_agent. intros Hask.
  rewrite !webhook_handler_eq.
  destruct (key_differs (x_api_key request) (API_KEY srv)); [split; reflexivity|].
  destruct (body request) as [v|e]; [|split; reflexivity].
  destruct v as [|b|z|f|s|l|items]; try (split; reflexivity).
  cbv zeta. rewrite Hask.
  destruct (eq_str _ "deploy");
    [destruct (dict_get items "data" (VDict [])); split; reflexivity|].
  destruct (eq_str _ "code_review");
    [destruct (dict_get items "data" (VDict [])); split; reflexivity|].
  split; reflexivity.
Qed.

Lemma webhook_time_independent_witness :
  let request := json_request (Some "B7hVKeNKPcVIL0lk")
                   [("action", VStr "deploy"); ("data", VDict [])] in
  webhook_handler (fun _ => "") (startup []) (mkDatetime 2024 1 2 3 4 5 0) request
  = webhook_handler (fun _ => "") (startup []) (mkDatetime 2031 12 31 23 59 59 7) request /\
  existsb is_clock_read
    (trace (webhook_handler (fun _ => "") (startup []) (mkDatetime 2024 1 2 3 4 5 0) request))
  = false.
Proof.
  apply (webhook_time_independent (fun _ => "") (startup [])
           (mkDatetime 2024 1 2 3 4 5 0) (mkDatetime 2031 12 31 23 59 59 7)
           (json_request (Some "B7hVKeNKPcVIL0lk")
              [("action", VStr "deploy"); ("data", VDict [])])).
  reflexivity.
Defined.

(** ** Reading time stamps back *)

Lemma number_zeros (k : nat) (s : string) : number (zeros k ++ s) = number s.
Proof.
  induction k as [|k IH]; simpl; [reflexivity|].
  unfold number in *. simpl.
  destruct (NilEmpty.uint_of_string (zeros k ++ s)) as [d|];
    destruct (NilEmpty.uint_of_string s) as [d'|];
    cbn [option_map uint_of_char] in *; try congruence.
  change (Z.of_uint (Decimal.D0 d)) with (Z.of_uint d). exact IH.
Qed.

Lemma string_of_Z_uint (n : Z) :
  (0 <= n)%Z ->
  exists d, string_of_Z n = NilEmpty.string_of_uint d /\ Z.of_uint d = n /\ d <> Decimal.Nil.
Proof.
  intros H. unfold string_of_Z.
  destruct n as [|p|p]; [exists (Decimal.D0 Decimal.Nil); repeat split; discriminate| |lia].
  exists (Pos.to_uint p). pose proof (DecimalPos.Unsigned.to_uint_nonnil p) as Hnn.
  repeat split.
  - simpl. destruct (Pos.to_uint p); [congruence | reflexivity ..].
  - unfold Z.of_uint. now rewrite DecimalPos.Unsigned.of_to.
  - exact Hnn.
Qed.

Lemma number_zpad (width : nat) (n : Z) :
  (0 <= n)%Z -> number (zpad width n) = Some n.
Proof.
  intros H. destruct (string_of_Z_uint n H) as (d & Hs & Hd & _).
  unfold zpad. cbv zeta. rewrite number_zeros, Hs.
  unfold number. now rewrite NilEmpty.usu, <- Hd.
Qed.

Lemma all_digits_app (a b : string) :
  all_digits (a ++ b) = all_digits a && all_digits b.
Proof.
  induction a as [|c a IH]; simpl; [reflexivity|]. now rewrite IH, andb_assoc.
Qed.

Lemma all_digits_uint (d : Decimal.uint) : all_digits (NilEmpty.string_of_uint d) = true.
Proof. induction d; simpl; auto. Qed.

Lemma all_digits_zeros (k : nat) : all_digits (zeros k) = true.
Proof. induction k; simpl; auto. Qed.

(** A padded number is made of digits and is not empty, whatever its
    width and its size. *)
Lemma zpad_digits (width : nat) (n : Z) :
  (0 <= n)%Z -> all_digits (zpad width n) = true /\ zpad width n <> "".
Proof.
  intros H. destruct (string_of_Z_uint n H) as (d & Hs & _ & Hnn).
  unfold zpad. cbv zeta. rewrite Hs. split.
  - now rewrite all_digits_app, all_digits_zeros, all_digits_uint.
  - destruct (zeros _); [|discriminate]. simpl.
    destruct d; [congruence | discriminate ..].
Qed.

Lemma take_app_length (a r : string) : take (String.length a) (a ++ r) = a.
Proof. induction a as [|c a IH]; simpl; [now destruct r | now rewrite IH]. Qed.

Lemma drop_app_length (a r : string) : drop (String.length a) (a ++ r) = r.
Proof. induction a as [|c a IH]; simpl; [now destruct r | exact IH]. Qed.

(** A padded field that fills its width is read back, and the reading
    goes on right after it. *)
Lemma read_number_zpad (width : nat) (n : Z) (r : string) :
  (0 <= n)%Z -> fills width n = true ->
  read_number width (zpad width n ++ r) = Some (n, r).
Proof.
  intros Hn Hf. pose proof Hf as Hf'. unfold fills in Hf'.
  apply andb_true_iff in Hf'. destruct Hf' as [Hl Hd]. apply Nat.eqb_eq in Hl.
  assert (Ht : take width (zpad width n ++ r) = zpad width n).
  { rewrite <- Hl at 1. apply take_app_length. }
  assert (Hr : drop width (zpad width n ++ r) = r).
  { rewrite <- Hl at 1. apply drop_app_length. }
  unfold read_number. rewrite Ht, Hr. fold (fills width n).
  rewrite Hf, number_zpad by exact Hn. reflexivity.
Qed.

Lemma string_app_nil_r (s : string) : s ++ "" = s.
Proof. induction s as [|c s IH]; simpl; [reflexivity | now rewrite IH]. Qed.

Lemma parse_stamp_strftime (t : datetime) :
  valid_datetime t -> (1000 <= year t)%Z ->
  parse_stamp (strftime_stamp t) = Some (to_second t).
Proof.
  intros (Hy & Hm & Hd & HH & HM & HS & _) Hy'.
  unfold parse_stamp, strftime_stamp, to_second.
  rewrite (year_text (year t)) by lia.
  rewrite <- (string_app_nil_r (zpad 2 (second t))).
  rewrite read_number_zpad by (try apply zpad4_fills; lia). cbn [and_read].
  rewrite read_number_zpad by (try apply zpad2_fills; lia). cbn [and_read].
  rewrite read_number_zpad by (try apply zpad2_fills; lia). cbn [and_read].
  change ("_" ++ ?x) with (String "_" x).
  cbn [read_char Ascii.eqb Bool.eqb and_skip].
  rewrite read_number_zpad by (try apply zpad2_fills; lia). cbn [and_read].
  rewrite read_number_zpad by (try apply zpad2_fills; lia). cbn [and_read].
  rewrite read_number_zpad by (try apply zpad2_fills; lia). cbn [and_read].
  reflexivity.
Qed.

Lemma parse_isoformat_isoformat (t : datetime) :
  valid_datetime t -> parse_isoformat (isoformat t) = Some t.
Proof.
  intros (Hy & Hm & Hd & HH & HM & HS & Hus).
  destruct t as [y mo d h mi s us]. cbn [year month day hour minute second microsecond] in *.
  unfold parse_isoformat, isoformat.
  cbn [year month day hour minute second microsecond].
  rewrite read_number_zpad by (try apply zpad4_fills; lia). cbn [and_read].
  change ("-" ++ ?x) with (String "-" x).
  cbn [read_char Ascii.eqb Bool.eqb and_skip].
  rewrite read_number_zpad by (try apply zpad2_fills; lia). cbn [and_read].
  change ("-" ++ ?x) with (String "-" x).
  cbn [read_char Ascii.eqb Bool.eqb and_skip].
  rewrite read_number_zpad by (try apply zpad2_fills; lia). cbn [and_read].
  change ("T" ++ ?x) with (String "T" x).
  cbn [read_char Ascii.eqb Bool.eqb and_skip].
  rewrite read_number_zpad by (try apply zpad2_fills; lia). cbn [and_read].
  change (":" ++ ?x) with (String ":" x).
  cbn [read_char Ascii.eqb Bool.eqb and_skip].
  rewrite read_number_zpad by (try apply zpad2_fills; lia). cbn [and_read].
  change (":" ++ ?x) with (String ":" x).
  cbn [read_char Ascii.eqb Bool.eqb and_skip].
  rewrite read_number_zpad by (try apply zpad2_fills; lia). cbn [and_read].
  destruct (Z.eqb_spec us 0) as [-> | Hne]; [reflexivity|].
  change ("." ++ ?x) with (String "." x).
  assert (H0 : (0 <= us)%Z) by lia.
  destruct (zpad_digits 6 us H0) as [Hdig Hnonempty].
  apply String.eqb_neq in Hnonempty.
  cbn [Ascii.eqb Bool.eqb andb]. rewrite Hdig, Hnonempty. cbn [negb andb].
  rewrite number_zpad by exact H0. reflexivity.
Qed.

(** ** Identifiers and time stamps *)

(** What a call of [create_agent] returns. *)
Lemma create_agent_returned (now : datetime) (d : value) :
  returned (create_agent now d)
  = Some (VDict [("status", VStr "success");
                 ("agent_id", VStr ("agent_" ++ strftime_stamp now));
                 ("message", VStr "Agent created successfully");
                 ("config", if truthy d then d else VDict [])]).
Proof. now rewrite create_agent_eq. Qed.




Lemma stamp_inj (t t' : datetime) :
  valid_datetime t -> (1000 <= year t)%Z ->
  valid_datetime t' -> (1000 <= year t')%Z ->
  strftime_stamp t = strftime_stamp t' -> to_second t = to_second t'.
Proof.
  intros Ht Hy Ht' Hy' H.
  pose proof (parse_stamp_strftime t Ht Hy) as P.
  rewrite H, (parse_stamp_strftime t' Ht' Hy') in P. congruence.
Qed.

(** X11.  The objects that two calls of [create_agent] return (from the
    year 1000 on) carry the same identifier exactly when the calls fall
    within the same second (same year, month, day, hour, minute and
    second), whatever their data; and with the same data the two objects
    are then the same. *)
Theorem agent_id_collision_iff_same_second (now now' : datetime) (d d' : value) :
  valid_datetime now -> (1000 <= year now)%Z ->
  valid_datetime now' -> (1000 <= year now')%Z ->
  exists v v' id id',
    returned (create_agent now d) = Some v /\
    returned (create_agent now' d') = Some v' /\
    field "agent_id" v = Some id /\
    field "agent_id" v' = Some id' /\
    (id = id' <-> to_second now = to_second now') /\
    (d = d' -> (v = v' <-> to_second now = to_second now')).
Proof.
  intros Hnow Hy Hnow' Hy'.
  assert (Hstamp : to_second now = to_second now' ->
                   strftime_stamp now = strftime_stamp now').
  { unfold to_second, strftime_stamp. intros [= -> -> -> -> -> ->]. reflexivity. }
  do 4 eexists. rewrite !create_agent_returned.
  split; [reflexivity|]. split; [reflexivity|].
  split; [reflexivity|]. split; [reflexivity|]. split.
  - split.
    + intros H. injection H as H. now apply stamp_inj.
    + intros H. now rewrite (Hstamp H).
  - intros <-. split.
    + intros H. injection H as H. now apply stamp_inj.
    + intros H. now rewrite (Hstamp H).
Qed.

Lemma agent_id_collision_iff_same_second_witness :
  let now := mkDatetime 2024 1 2 3 4 5 0 in
  let now' := mkDatetime 2024 1 2 3 4 5 999999 in
  exists v v' id id',
    returned (create_agent now (VInt 1)) = Some v /\
    returned (create_agent now' (VInt 2)) = Some v' /\
    field "agent_id" v = Some id /\
    field "agent_id" v' = Some id' /\
    (id = id' <-> to_second now = to_second now') /\
    (VInt 1 = VInt 2 -> (v = v' <-> to_second now = to_second now')).
Proof.
  apply (agent_id_collision_iff_same_second
           (mkDatetime 2024 1 2 3 4 5 0) (mkDatetime 2024 1 2 3 4 5 999999)
           (VInt 1) (VInt 2)).
  - unfold valid_datetime. simpl. lia.
  - simpl. lia.
  - unfold valid_datetime. simpl. lia.
  - simpl. lia.
Defined.

(** X12.  [GET /health] answers 200 with [status] "healthy" and a
    [timestamp] from which the whole clock reading, microseconds
    included, is read back; so two different readings never give the
    same timestamp. *)
Theorem health_timestamp_round_trip
  (py_repr : value -> string) (srv : server) (now : datetime) :
  valid_datetime now ->
  exists timestamp,
    respond (route py_repr srv now GET_health)
    = mkResponse 200 (VDict [("status", VStr "healthy");
                             ("timestamp", VStr timestamp)]) /\
    parse_isoformat timestamp = Some now /\
    (forall now', valid_datetime now' -> isoformat now' = timestamp -> now' = now).
Proof.
  intros Hnow. exists (isoformat now). split.
  { cbn [route]. unfold respond, health_check.
    cbn [bind utcnow emit ret outcome trace renderable forallb].
    rewrite (plain_text_encodable _ (plain_text_isoformat now)). reflexivity. }
  split; [now apply parse_isoformat_isoformat|].
  intros now' Hnow' H.
  pose proof (parse_isoformat_isoformat now' Hnow') as P.
  rewrite H, (parse_isoformat_isoformat now Hnow) in P. congruence.
Qed.

Lemma health_timestamp_round_trip_witness :
  let now := mkDatetime 2024 1 2 3 4 5 600 in
  exists timestamp,
    respond (route (fun _ => "") (startup []) now GET_health)
    = mkResponse 200 (VDict [("status", VStr "healthy");
                             ("timestamp", VStr timestamp)]) /\
    parse_isoformat timestamp = Some now /\
    (forall now', valid_datetime now' -> isoformat now' = timestamp -> now' = now).
Proof.
  apply (health_timestamp_round_trip (fun _ => "") (startup [])
           (mkDatetime 2024 1 2 3 4 5 600)).
  unfold valid_datetime. simpl. lia.
Defined.

(** ** Configuration echoed by agent creation *)



(** ** Created agents and the listing *)

(** X14.  The identifier given to a created agent is never one of the
    identifiers that [GET /api/agents] lists, at whatever times the two
    requests are served: a created agent does not show in the listing. *)
Theorem created_agent_not_listed
  (py_repr : value -> string) (srv : server) (now later : datetime)
  (r : http_request) (d : value) (id : value) :
  valid_datetime now ->
  invokes_create_agent srv r d ->
  field "agent_id" (content (respond (route py_repr srv now r))) = Some id ->
  ~ In id (listed_ids (content (respond (route py_repr srv later GET_api_agents)))).
Proof.
  intros Hnow Hinv Hid.
  rewrite (invocation_response py_repr srv now r d Hinv), respond_create_agent in Hid.
  destruct (renderable d); [|discriminate].
  injection Hid as <-.
  destruct Hnow as (_ & Hm & Hd & HH & HM & HS & _).
  assert (Hcount : (10 <= count_digits ("agent_" ++ strftime_stamp now))%nat).
  { unfold strftime_stamp. rewrite !count_digits_app.
    rewrite !count_fills by (apply zpad2_fills; lia).
    cbn [count_digits is_digit nat_of_ascii]. lia. }
  change (respond (route py_repr srv later GET_api_agents))
    with (mkResponse 200 fixed_agents).
  cbn [content fixed_agents listed_ids field lookup
       String.eqb Ascii.eqb Bool.eqb flat_map app].
  intros [H | [H | []]]; injection H as H; rewrite <- H in Hcount;
    vm_compute in Hcount; lia.
Qed.

Lemma created_agent_not_listed_witness :
  let now := mkDatetime 2024 1 2 3 4 5 0 in
  ~ In (VStr "agent_20240102_030405")
      (listed_ids (content (respond (route (fun _ => "") (startup []) now GET_api_agents)))).
Proof.
  apply (created_agent_not_listed (fun _ => "") (startup [])
           (mkDatetime 2024 1 2 3 4 5 0) (mkDatetime 2024 1 2 3 4 5 0)
           (POST_api_agents None) VNone (VStr "agent_20240102_030405")).
  - unfold valid_datetime. simpl. lia.
  - apply (via_api_agents (startup []) None).
  - reflexivity.
Defined.

(** ** The configured key *)

Lemma right_key_not_401
  (py_repr : value -> string) (srv : server) (now : datetime) (request : Request) :
  x_api_key request = Some (API_KEY srv) ->
  status (respond (webhook_handler py_repr srv now request)) <> 401%Z.
Proof.
  intros Hkey. apply key_differs_false in Hkey.
  pose proof (webhook_runs py_repr srv now request) as H. cbv zeta in H.
  rewrite Hkey in H. destruct (webhook_fails request).
  - destruct H as (before & e & -> & _). discriminate.
  - destruct H as (events & v & msg & -> & _).
    unfold respond. cbn [outcome]. destruct (renderable v); discriminate.
Qed.

(** X15.  When [OMNARA_API_KEY] is set, its value is the key as it
    stands, also when it is the empty string: a request with that value
    as header is not answered 401, and the default literal is then
    refused unless it is that value. *)
Theorem set_key_is_used_verbatim
  (py_repr : value -> string) (before after : environ) (v : string)
  (now : datetime) (b : body_read) :
  (forall v', ~ In ("OMNARA_API_KEY", v') before) ->
  let srv := startup (before ++ ("OMNARA_API_KEY", v) :: after)%list in
  API_KEY srv = v /\
  status (respond (webhook_handler py_repr srv now (mkRequest (Some v) b))) <> 401%Z /\
  (v <> "B7hVKeNKPcVIL0lk" ->
   respond (webhook_handler py_repr srv now (mkRequest (Some "B7hVKeNKPcVIL0lk") b))
   = invalid_key_response).
Proof.
  intros Hunset srv.
  assert (Hkey : API_KEY srv = v).
  { unfold srv, startup. cbn [API_KEY]. clear srv.
    induction before as [|[k' v'] rest IH]; cbn [app environ_get].
    - now rewrite String.eqb_refl.
    - destruct (String.eqb "OMNARA_API_KEY" k') eqn:E.
      + apply String.eqb_eq in E. subst k'. exfalso. apply (Hunset v'). now left.
      + apply IH. intros v'' Hin. apply (Hunset v''). now right. }
  split; [exact Hkey|]. split.
  - apply right_key_not_401. cbn [x_api_key]. now rewrite Hkey.
  - intros Hne. unfold webhook_handler. cbn [x_api_key key_differs]. rewrite Hkey.
    assert (E : String.eqb "B7hVKeNKPcVIL0lk" v = false).
    { apply String.eqb_neq. congruence. }
    rewrite E. reflexivity.
Qed.

Lemma set_key_is_used_verbatim_witness :
  let srv := startup ([("PORT", "8080")] ++ ("OMNARA_API_KEY", "") :: [])%list in
  let b := BodyJson (VDict []) in
  API_KEY srv = "" /\
  status (respond (webhook_handler (fun _ => "") srv (mkDatetime 2024 1 2 3 4 5 0)
                     (mkRequest (Some "") b))) <> 401%Z /\
  ("" <> "B7hVKeNKPcVIL0lk" ->
   respond (webhook_handler (fun _ => "") srv (mkDatetime 2024 1 2 3 4 5 0)
              (mkRequest (Some "B7hVKeNKPcVIL0lk") b))
   = invalid_key_response).
Proof.
  apply (set_key_is_used_verbatim (fun _ => "") [("PORT", "8080")] [] ""
           (mkDatetime 2024 1 2 3 4 5 0) (BodyJson (VDict []))).
  intros v' [H | []]. discriminate.
Defined.
